(** * EC2 instance metadata retrieval (pkg/nodebootstrap/utils/metadata.go)

    A shallow embedding of [GetEC2InstanceMetadata], its helpers
    [getIMDSToken] and [getMetadata], and of the test variant
    [testGetEC2InstanceMetadata] / [getMetadataFromURL] of the test file.

    The Go code talks to the instance metadata service over HTTP.  The
    embedding keeps the Go control flow (one [match] per [if err != nil])
    and threads the state of the outside world through a small state monad.
    Every call of [client.Do] is appended to a trace, so that statements
    about "which requests are issued" are statements about that trace.
    The deferred [resp.Body.Close()] changes neither what is sent nor what
    is returned and is left out. *)

From stdpp Require Import base option list strings pretty gmap.

Local Open Scope Z_scope.
Local Open Scope string_scope.

(** ** Go errors *)

Module errors.

(** The two concrete error shapes the package builds: [*errors.errorString]
    (from [fmt.Errorf] without the [%w] verb) and [*fmt.wrapError] (from
    [fmt.Errorf] with [%w]).  Errors handed over by the network stack
    are values of the same type. *)
Inductive error : Type :=
  | errorString (s : string)
  | wrapError (msg : string) (err : error).

(** [err.Error()] *)
Definition Error (e : error) : string :=
  match e with
  | errorString s => s
  | wrapError msg _ => msg
  end.

(** [errors.Unwrap(err)] *)
Definition Unwrap (e : error) : option error :=
  match e with
  | errorString _ => None
  | wrapError _ err => Some err
  end.

(** The chain that [errors.Is] / [errors.As] walk: the error itself, then
    what it wraps, and so on. *)
Fixpoint chain (e : error) : list error :=
  e :: match e with
       | errorString _ => []
       | wrapError _ err => chain err
       end.

End errors.
Export errors.

Module fmt.

(** [fmt.Errorf(prefix + "%w", err)]: the message is the prefix followed
    by the message of [err], and [Unwrap] gives [err] back. *)
Definition Errorf_w (prefix : string) (err : error) : error :=
  wrapError (prefix +:+ Error err) err.

(** [fmt.Errorf(prefix + "%d", n)] *)
Definition Errorf_d (prefix : string) (n : Z) : error :=
  errorString (prefix +:+ pretty n).

(** [fmt.Errorf(prefix + "%s" + infix + "%d", s, n)] *)
Definition Errorf_s_d (prefix s infix : string) (n : Z) : error :=
  errorString (prefix +:+ s +:+ infix +:+ pretty n).

End fmt.

(** A Go call that returns a pointer and an error, exactly one of them set. *)
Inductive go_result (A : Type) : Type :=
  | Ok (a : A)
  | Err (err : error).
Arguments Ok {A} a.
Arguments Err {A} err.

(** ** The part of net/http, io and time the package uses *)

Module http.

Inductive Method : Type := MethodGet | MethodPut.

Definition StatusOK : Z := 200.
Definition StatusUnauthorized : Z := 401.
Definition StatusForbidden : Z := 403.
Definition StatusNotFound : Z := 404.

(** [http.Header] is [map[string][]string]. *)
Record Request : Type := mkRequest {
  Method_ : Method;
  URL : string;
  Header : gmap string (list string)
}.

(** What [io.ReadAll(resp.Body)] will deliver: the bytes that arrived and
    the error, if any, that ended the stream. *)
Record Body : Type := mkBody {
  bytes : string;
  read_err : option error
}.

Record Response : Type := mkResponse {
  StatusCode : Z;
  Body_ : Body
}.

(** [http.Client]; [Timeout] is a [time.Duration], in nanoseconds. *)
Record Client : Type := mkClient { Timeout : Z }.

(** One call of [client.Do]: who called, with what, and what came back. *)
Record Exchange : Type := mkExchange {
  ex_client : Client;
  ex_request : Request;
  ex_outcome : go_result Response
}.

End http.
Export http.

Module time.
Definition Second : Z := 1000000000.
End time.

Module io.
(** [io.ReadAll(r)] returns [(data, err)]. *)
Definition ReadAll (b : Body) : string * option error :=
  (bytes b, read_err b).
End io.

(** ** The outside world

    What the package cannot decide by itself is taken as an interface: the
    peer behind [client.Do] (any deterministic state machine), the URL
    parser behind [http.NewRequest], and the canonical form of header names
    that [Header.Set] and [Header.Get] share. *)

Class World : Type := {
  Conn : Type;
  RoundTrip : Conn → Client → Request → go_result Response * Conn;
  url_Parse : string → option error;
  CanonicalMIMEHeaderKey : string → string
}.

Section Embedding.

Context `{W : World}.

(** *** State monad: the peer's state and the trace of exchanges *)

Record State : Type := mkState {
  conn : Conn;
  trace : list Exchange
}.

Definition M (A : Type) : Type := State → A * State.

#[export] Instance M_ret : MRet M := λ A a s, (a, s).
#[export] Instance M_bind : MBind M := λ A B f m s,
  let '(a, s') := m s in f a s'.

(** [client.Do(req)] *)
Definition client_Do (client : Client) (req : Request)
  : M (go_result Response) := λ s,
  let '(o, c') := RoundTrip (conn s) client req in
  (o, {| conn := c'; trace := trace s ++ [mkExchange client req o] |}).

(** [http.NewRequest(method, url, nil)]: the methods used are the
    constants [http.MethodGet] and [http.MethodPut], so the call fails
    exactly when the URL does not parse. *)
Definition NewRequest (method : Method) (url : string)
  : go_result Request :=
  match url_Parse url with
  | Some err => Err err
  | None => Ok {| Method_ := method; URL := url; Header := ∅ |}
  end.

(** [req.Header.Set(key, value)] *)
Definition Header_Set (req : Request) (key value : string) : Request :=
  {| Method_ := Method_ req; URL := URL req;
     Header := <[CanonicalMIMEHeaderKey key := [value]]> (Header req) |}.

(** [req.Header.Get(key)] *)
Definition Header_Get (req : Request) (key : string) : string :=
  match Header req !! CanonicalMIMEHeaderKey key with
  | Some (v :: _) => v
  | _ => ""
  end.

(** *** metadata.go *)

(** getIMDSToken gets a token for IMDSv2 *)
Definition getIMDSToken : M (string * option error) :=
  let client := {| Timeout := 5 * time.Second |} in
  match NewRequest MethodPut "http://169.254.169.254/latest/api/token" with
  | Err err => mret ("", Some err)
  | Ok req =>
    let req := Header_Set req "X-aws-ec2-metadata-token-ttl-seconds" "600" in
    o ← client_Do client req;
    match o with
    | Err err => mret ("", Some err)
    | Ok resp =>
      if decide (StatusCode resp ≠ StatusOK) then
        mret ("", Some (fmt.Errorf_d "failed to get token, status code: "
                          (StatusCode resp)))
      else
        match io.ReadAll (Body_ resp) with
        | (_, Some err) => mret ("", Some err)
        | (token, None) => mret (token, None)
        end
    end
  end.

(** getMetadata gets specific metadata using the provided token *)
Definition getMetadata (token path : string) : M (string * option error) :=
  let client := {| Timeout := 5 * time.Second |} in
  match NewRequest MethodGet
          ("http://169.254.169.254/latest/meta-data/" +:+ path) with
  | Err err => mret ("", Some err)
  | Ok req =>
    let req := Header_Set req "X-aws-ec2-metadata-token" token in
    o ← client_Do client req;
    match o with
    | Err err => mret ("", Some err)
    | Ok resp =>
      if decide (StatusCode resp ≠ StatusOK) then
        mret ("", Some (fmt.Errorf_s_d "failed to get metadata for " path
                          ", status code: " (StatusCode resp)))
      else
        match io.ReadAll (Body_ resp) with
        | (_, Some err) => mret ("", Some err)
        | (data, None) => mret (data, None)
        end
    end
  end.

(** GetEC2InstanceMetadata retrieves EC2 instance metadata and returns it
    as a map.  The Go function returns [(map[string]string, error)];
    [None] in either component is Go's [nil]. *)
Definition GetEC2InstanceMetadata
  : M (option (gmap string string) * option error) :=
  let metadata : gmap string string := ∅ in
  '(token, err) ← getIMDSToken;
  match err with
  | Some err => mret (None, Some (fmt.Errorf_w "failed to get IMDS token: " err))
  | None =>
    '(instanceID, err) ← getMetadata token "instance-id";
    match err with
    | Some err =>
      mret (None, Some (fmt.Errorf_w "failed to get instance ID: " err))
    | None =>
      let metadata := <["alpha.eksctl.io/instance-id" := instanceID]> metadata in
      '(instanceLifecycle, err) ← getMetadata token "instance-life-cycle";
      let instanceLifecycle :=
        match err with
        | Some _ => "on-demand"
        | None => instanceLifecycle
        end in
      let metadata := <["node-lifecycle" := instanceLifecycle]> metadata in
      mret (Some metadata, None)
    end
  end.

(** *** metadata_test.go *)

Definition getMetadataFromURL (client : Client)
    (token serverURL path : string) : M (string * option error) :=
  match NewRequest MethodGet
          (serverURL +:+ "/latest/meta-data/" +:+ path) with
  | Err err => mret ("", Some err)
  | Ok req =>
    let req := Header_Set req "X-aws-ec2-metadata-token" token in
    o ← client_Do client req;
    match o with
    | Err err => mret ("", Some err)
    | Ok resp =>
      if decide (StatusCode resp ≠ StatusOK) then
        mret ("", Some (fmt.Errorf_s_d "failed to get metadata for " path
                          ", status code: " (StatusCode resp)))
      else
        match io.ReadAll (Body_ resp) with
        | (_, Some err) => mret ("", Some err)
        | (data, None) => mret (data, None)
        end
    end
  end.

(** A test version of GetEC2InstanceMetadata that uses a custom server
    URL.  [&http.Client{}] has the zero [Timeout]. *)
Definition testGetEC2InstanceMetadata (serverURL : string)
  : M (option (gmap string string) * option error) :=
  let metadata : gmap string string := ∅ in
  let client := {| Timeout := 0 |} in
  match NewRequest MethodPut (serverURL +:+ "/latest/api/token") with
  | Err err =>
    mret (None, Some (fmt.Errorf_w "failed to create token request: " err))
  | Ok req =>
    let req := Header_Set req "X-aws-ec2-metadata-token-ttl-seconds" "600" in
    o ← client_Do client req;
    match o with
    | Err err => mret (None, Some (fmt.Errorf_w "failed to get token: " err))
    | Ok resp =>
      if decide (StatusCode resp ≠ StatusOK) then
        mret (None, Some (fmt.Errorf_d "failed to get token, status code: "
                            (StatusCode resp)))
      else
        match io.ReadAll (Body_ resp) with
        | (_, Some err) =>
          mret (None, Some (fmt.Errorf_w "failed to read token: " err))
        | (tokenBytes, None) =>
          let token := tokenBytes in
          '(instanceID, err) ←
            getMetadataFromURL client token serverURL "instance-id";
          match err with
          | Some err =>
            mret (None, Some (fmt.Errorf_w "failed to get instance ID: " err))
          | None =>
            let metadata := <["instance-id" := instanceID]> metadata in
            '(instanceLifecycle, err) ←
              getMetadataFromURL client token serverURL "instance-life-cycle";
            let instanceLifecycle :=
              match err with
              | Some _ => "on-demand"
              | None => instanceLifecycle
              end in
            let metadata :=
              <["instance-lifecycle" := instanceLifecycle]> metadata in
            mret (Some metadata, None)
          end
        end
    end
  end.

(** *** Running a call from a fresh trace *)

Definition run {A : Type} (m : M A) (c : Conn) : A * list Exchange :=
  let '(a, s) := m {| conn := c; trace := [] |} in (a, trace s).

(** What the caller gets back. *)
Definition returned {A : Type} (m : M A) (c : Conn) : A := (run m c).1.

(** The calls of [client.Do] made, in order, with their outcomes. *)
Definition exchanges {A : Type} (m : M A) (c : Conn) : list Exchange :=
  (run m c).2.

Definition requests {A : Type} (m : M A) (c : Conn) : list Request :=
  ex_request <$> exchanges m c.

Definition outcomes {A : Type} (m : M A) (c : Conn)
  : list (go_result Response) :=
  ex_outcome <$> exchanges m c.

End Embedding.

(** ** Concrete peers

    [Scripted]: a peer that answers the k-th call of [client.Do] with the
    k-th entry of a script, whatever is asked, and refuses the connection
    once the script is used up.  Every URL parses and header names are
    kept as written. *)

Module Scripted.

Definition refused : error := errorString "connection refused".

Definition round_trip (script : list (go_result Response))
    (_ : Client) (_ : Request)
  : go_result Response * list (go_result Response) :=
  match script with
  | [] => (Err refused, [])
  | o :: rest => (o, rest)
  end.

Definition world : World := {|
  Conn := list (go_result Response);
  RoundTrip := round_trip;
  url_Parse := λ _, None;
  CanonicalMIMEHeaderKey := λ key, key
|}.

(** A complete response with the given status and body. *)
Definition reply (status : Z) (body : string) : go_result Response :=
  Ok {| StatusCode := status;
        Body_ := {| bytes := body; read_err := None |} |}.

(** A response whose body breaks off with an error after [partial]. *)
Definition truncated (status : Z) (partial : string) (err : error)
  : go_result Response :=
  Ok {| StatusCode := status;
        Body_ := {| bytes := partial; read_err := Some err |} |}.

(** The two scenarios of the test file, and the failures met below. *)

Definition spot_instance : list (go_result Response) :=
  [reply StatusOK "mock-token"; reply StatusOK "i-1234567890abcdef0";
   reply StatusOK "spot"].

Definition lifecycle_not_found : list (go_result Response) :=
  [reply StatusOK "mock-token"; reply StatusOK "i-1234567890abcdef0";
   reply StatusNotFound ""].

Definition token_forbidden : list (go_result Response) :=
  [reply StatusForbidden ""].

Definition instance_id_not_found : list (go_result Response) :=
  [reply StatusOK "mock-token"; reply StatusNotFound ""].

(** The token endpoint answers 200 with an empty body; the metadata
    endpoint then rejects the empty token. *)
Definition empty_token_rejected : list (go_result Response) :=
  [reply StatusOK ""; reply StatusUnauthorized ""].

(** The lifecycle reply starts as a 200 but its body breaks off. *)
Definition lifecycle_truncated : list (go_result Response) :=
  [reply StatusOK "mock-token"; reply StatusOK "i-1234567890abcdef0";
   truncated StatusOK "sp" (errorString "unexpected EOF")].

(** The error the production function returns when the token request is
    answered with 403. *)
Definition token_forbidden_error : error :=
  fmt.Errorf_w "failed to get IMDS token: "
    (fmt.Errorf_d "failed to get token, status code: " StatusForbidden).

(** The token endpoint cannot be reached. *)
Definition token_unreachable : list (go_result Response) :=
  [Err refused].

(** The token is handed out, then the connection is lost. *)
Definition instance_id_unreachable : list (go_result Response) :=
  [reply StatusOK "mock-token"; Err refused].

(** A peer like [world] behind a URL parser that rejects a URL without a
    scheme (one that starts with a colon). *)
Definition missing_scheme : error := errorString "missing protocol scheme".

Definition picky_world : World := {|
  Conn := list (go_result Response);
  RoundTrip := round_trip;
  url_Parse := λ url,
    if String.prefix ":" url then Some missing_scheme else None;
  CanonicalMIMEHeaderKey := λ key, key
|}.

End Scripted.

(** ** Reading the code: replies, requests and execution paths *)

Section Paths.

Context `{W : World}.

(** The client both production helpers build. *)
Definition imdsClient : Client := {| Timeout := 5 * time.Second |}.

(** The request [getIMDSToken] hands to [client.Do]. *)
Definition tokenRequest : Request :=
  Header_Set
    {| Method_ := MethodPut;
       URL := "http://169.254.169.254/latest/api/token";
       Header := ∅ |}
    "X-aws-ec2-metadata-token-ttl-seconds" "600".

(** The request [getMetadata token path] hands to [client.Do]. *)
Definition metadataRequest (token path : string) : Request :=
  Header_Set
    {| Method_ := MethodGet;
       URL := "http://169.254.169.254/latest/meta-data/" +:+ path;
       Header := ∅ |}
    "X-aws-ec2-metadata-token" token.

(** What both helpers do with the outcome of [client.Do]: a transport
    error is passed on, a status other than 200 becomes an error built by
    [status_error], a body that cannot be read passes the read error on,
    and only a fully read body of a 200 reply is returned. *)
Definition classify (status_error : Z → error) (o : go_result Response)
  : string * option error :=
  match o with
  | Err err => ("", Some err)
  | Ok resp =>
    if decide (StatusCode resp ≠ StatusOK) then
      ("", Some (status_error (StatusCode resp)))
    else
      match read_err (Body_ resp) with
      | Some err => ("", Some err)
      | None => (bytes (Body_ resp), None)
      end
  end.

Definition tokenStatusError : Z → error :=
  fmt.Errorf_d "failed to get token, status code: ".

Definition metadataStatusError (path : string) : Z → error :=
  fmt.Errorf_s_d "failed to get metadata for " path ", status code: ".

(** An exchange that did not bring back a complete 200 reply: a network
    error (from [client.Do] or while the body is read) or a status other
    than 200. *)
Definition failed (o : go_result Response) : bool :=
  match o with
  | Err _ => true
  | Ok resp =>
    bool_decide (StatusCode resp ≠ StatusOK)
    || bool_decide (is_Some (read_err (Body_ resp)))
  end.

(** Extending a trace by one call of [client.Do]. *)
Definition logged (s : State) (c' : Conn) (client : Client)
    (req : Request) (o : go_result Response) : State :=
  {| conn := c'; trace := trace s ++ [mkExchange client req o] |}.

(** One helper call, seen from outside: either the request could not be
    built and nothing was sent, or exactly one exchange took place and
    its outcome was classified.  [Call client req f c t c' r]: started with the
    peer in state [c], the helper sends the exchanges [t], leaves the
    peer in state [c'] and returns [r]. *)
Inductive Call (client : Client) (req : Request) (f : Z → error) (c : Conn)
  : list Exchange → Conn → string * option error → Prop :=
  | call_not_built err :
      url_Parse (URL req) = Some err →
      Call client req f c [] c ("", Some err)
  | call_sent o c' :
      url_Parse (URL req) = None →
      RoundTrip c client req = (o, c') →
      Call client req f c [mkExchange client req o] c' (classify f o).

(** The three ways through [GetEC2InstanceMetadata]: out at the token,
    out at the instance ID, or through to the end (where an error of the
    lifecycle read is replaced by the default). *)
Inductive Path (c : Conn)
  : list Exchange → option (gmap string string) * option error → Prop :=
  | path_token_error t1 c1 v err :
      Call imdsClient tokenRequest tokenStatusError c t1 c1 (v, Some err) →
      Path c t1
        (None, Some (fmt.Errorf_w "failed to get IMDS token: " err))
  | path_instance_id_error t1 c1 token t2 c2 v err :
      Call imdsClient tokenRequest tokenStatusError c t1 c1 (token, None) →
      Call imdsClient (metadataRequest token "instance-id")
           (metadataStatusError "instance-id") c1 t2 c2 (v, Some err) →
      Path c (t1 ++ t2)
        (None, Some (fmt.Errorf_w "failed to get instance ID: " err))
  | path_completed t1 c1 token t2 c2 instanceID t3 c3 v err :
      Call imdsClient tokenRequest tokenStatusError c t1 c1 (token, None) →
      Call imdsClient (metadataRequest token "instance-id")
           (metadataStatusError "instance-id") c1 t2 c2 (instanceID, None) →
      Call imdsClient (metadataRequest token "instance-life-cycle")
           (metadataStatusError "instance-life-cycle") c2 t3 c3 (v, err) →
      Path c (t1 ++ t2 ++ t3)
        (Some (<["node-lifecycle" :=
                   match err with Some _ => "on-demand" | None => v end]>
                 (<["alpha.eksctl.io/instance-id" := instanceID]> ∅)),
         None).

(** The request [getMetadataFromURL client token serverURL path] hands to
    [client.Do]. *)
Definition metadataRequestAt (serverURL token path : string) : Request :=
  Header_Set
    {| Method_ := MethodGet;
       URL := serverURL +:+ "/latest/meta-data/" +:+ path;
       Header := ∅ |}
    "X-aws-ec2-metadata-token" token.

(** The body a complete reply carries. *)
Definition reply_body (o : go_result Response) : string :=
  match o with
  | Ok resp => bytes (Body_ resp)
  | Err _ => ""
  end.

(** What a sequence of outcomes lets either variant report: nothing
    unless the second exchange (the instance ID) is there and complete;
    then the instance ID and the lifecycle, the latter defaulted when
    the third exchange is missing or failed. *)
Definition observed (os : list (go_result Response))
  : option (string * string) :=
  match os with
  | _ :: o2 :: rest =>
    if failed o2 then None
    else Some (reply_body o2,
               match rest with
               | o3 :: _ => if failed o3 then "on-demand" else reply_body o3
               | [] => "on-demand"
               end)
  | _ => None
  end.

(** The key renaming between the test variant and the production
    function, "instance-id" to "alpha.eksctl.io/instance-id" and
    "instance-lifecycle" to "node-lifecycle", completed to a permutation
    of key names so that renaming never merges two entries. *)
Definition production_key (key : string) : string :=
  if decide (key = "instance-id") then "alpha.eksctl.io/instance-id"
  else if decide (key = "instance-lifecycle") then "node-lifecycle"
  else if decide (key = "alpha.eksctl.io/instance-id") then "instance-id"
  else if decide (key = "node-lifecycle") then "instance-lifecycle"
  else key.

(** A map with every key renamed. *)
Definition with_production_keys (m : gmap string string)
  : gmap string string :=
  kmap production_key m.

(** The client [testGetEC2InstanceMetadata] builds: no timeout. *)
Definition testClient : Client := {| Timeout := 0 |}.

(** The token request of the test variant. *)
Definition tokenRequestAt (serverURL : string) : Request :=
  Header_Set
    {| Method_ := MethodPut;
       URL := serverURL +:+ "/latest/api/token";
       Header := ∅ |}
    "X-aws-ec2-metadata-token-ttl-seconds" "600".

(** The network error an outcome carries, if any: the error of
    [client.Do], or the error that ended the body of a 200 reply. *)
Definition network_error (o : go_result Response) : option error :=
  match o with
  | Err err => Some err
  | Ok resp =>
    if decide (StatusCode resp ≠ StatusOK) then None
    else read_err (Body_ resp)
  end.

(** The error with which the test variant leaves its token stage, which
    it words by itself instead of calling a helper. *)
Definition test_token_error (o : go_result Response) : option error :=
  match o with
  | Err err => Some (fmt.Errorf_w "failed to get token: " err)
  | Ok resp =>
    if decide (StatusCode resp ≠ StatusOK) then
      Some (fmt.Errorf_d "failed to get token, status code: "
              (StatusCode resp))
    else
      match read_err (Body_ resp) with
      | Some err => Some (fmt.Errorf_w "failed to read token: " err)
      | None => None
      end
  end.

(** The ways through [testGetEC2InstanceMetadata]. *)
Inductive TestPath (serverURL : string) (c : Conn)
  : list Exchange → option (gmap string string) * option error → Prop :=
  | test_token_not_built err :
      url_Parse (serverURL +:+ "/latest/api/token") = Some err →
      TestPath serverURL c []
        (None, Some (fmt.Errorf_w "failed to create token request: " err))
  | test_token_error_path o c1 e :
      url_Parse (serverURL +:+ "/latest/api/token") = None →
      RoundTrip c testClient (tokenRequestAt serverURL) = (o, c1) →
      test_token_error o = Some e →
      TestPath serverURL c
        [mkExchange testClient (tokenRequestAt serverURL) o] (None, Some e)
  | test_instance_id_error o c1 t2 c2 v err :
      url_Parse (serverURL +:+ "/latest/api/token") = None →
      RoundTrip c testClient (tokenRequestAt serverURL) = (o, c1) →
      test_token_error o = None →
      Call testClient (metadataRequestAt serverURL (reply_body o) "instance-id")
           (metadataStatusError "instance-id") c1 t2 c2 (v, Some err) →
      TestPath serverURL c
        (mkExchange testClient (tokenRequestAt serverURL) o :: t2)
        (None, Some (fmt.Errorf_w "failed to get instance ID: " err))
  | test_completed o c1 t2 c2 instanceID t3 c3 v err :
      url_Parse (serverURL +:+ "/latest/api/token") = None →
      RoundTrip c testClient (tokenRequestAt serverURL) = (o, c1) →
      test_token_error o = None →
      Call testClient (metadataRequestAt serverURL (reply_body o) "instance-id")
           (metadataStatusError "instance-id") c1 t2 c2 (instanceID, None) →
      Call testClient
           (metadataRequestAt serverURL (reply_body o) "instance-life-cycle")
           (metadataStatusError "instance-life-cycle") c2 t3 c3 (v, err) →
      TestPath serverURL c
        (mkExchange testClient (tokenRequestAt serverURL) o :: t2 ++ t3)
        (Some (<["instance-lifecycle" :=
                   match err with Some _ => "on-demand" | None => v end]>
                 (<["instance-id" := instanceID]> ∅)),
         None).

End Paths.

Section Properties.

Context `{W : World}.

(** *** Replies *)

Lemma classify_failed (f : Z → error) (o : go_result Response) :
  failed o = true ↔ ∃ err, classify f o = ("", Some err).
Proof.
  unfold failed, classify. destruct o as [resp|err]; [|split; eauto].
  destruct (decide (StatusCode resp ≠ StatusOK)) as [Hs|Hs].
  - rewrite bool_decide_eq_true_2 by done. split; eauto.
  - rewrite bool_decide_eq_false_2 by done. simpl.
    rewrite bool_decide_eq_true.
    destruct (read_err (Body_ resp)); split; eauto.
    + by intros [? ?].
    + by intros [? ?].
Qed.

Lemma classify_ok (f : Z → error) (o : go_result Response) (v : string) :
  classify f o = (v, None) ↔
  ∃ resp, o = Ok resp ∧ StatusCode resp = StatusOK
          ∧ io.ReadAll (Body_ resp) = (v, None).
Proof.
  unfold classify, io.ReadAll. split.
  - destruct o as [resp|err]; [|done].
    case_decide as Hs; [done|].
    destruct (read_err (Body_ resp)) eqn:Hr; [done|].
    intros [= <-]. exists resp. split; [done|]. split; [|by rewrite Hr].
    by destruct (decide (StatusCode resp = StatusOK)).
  - intros (resp & -> & Hs & [= <- Hr]).
    case_decide; [done|]. by rewrite Hr.
Qed.

Lemma classify_error_or_value (f : Z → error) (o : go_result Response) :
  (∃ err, classify f o = ("", Some err))
  ∨ (∃ v, classify f o = (v, None)).
Proof.
  unfold classify. destruct o; [|by eauto].
  case_decide; [by eauto|]. destruct (read_err _); eauto.
Qed.

(** *** The helpers, one call of [client.Do] at a time *)

Lemma getIMDSToken_call (s : State) :
  ∃ t c', Call imdsClient tokenRequest tokenStatusError (conn s) t c' (getIMDSToken s).1
          ∧ (getIMDSToken s).2 = {| conn := c'; trace := trace s ++ t |}.
Proof.
  unfold getIMDSToken, NewRequest.
  destruct (url_Parse _) as [err|] eqn:Hurl.
  - exists [], (conn s). split; [by constructor|].
    destruct s; simpl. by rewrite app_nil_r.
  - unfold mbind, M_bind, client_Do. fold imdsClient tokenRequest.
    destruct (RoundTrip (conn s) imdsClient tokenRequest) as [o c'] eqn:Hrt.
    exists [mkExchange imdsClient tokenRequest o], c'.
    assert (Call imdsClient tokenRequest tokenStatusError (conn s)
              [mkExchange imdsClient tokenRequest o] c'
              (classify tokenStatusError o)) as Hcall by by constructor.
    destruct o as [resp|err]; simpl in *; [|done].
    case_decide; [done|]. by destruct (read_err _).
Qed.

Lemma getMetadata_call (token path : string) (s : State) :
  ∃ t c', Call imdsClient (metadataRequest token path) (metadataStatusError path)
            (conn s) t c' (getMetadata token path s).1
          ∧ (getMetadata token path s).2
            = {| conn := c'; trace := trace s ++ t |}.
Proof.
  unfold getMetadata, NewRequest.
  destruct (url_Parse _) as [err|] eqn:Hurl.
  - exists [], (conn s). split; [by constructor|].
    destruct s; simpl. by rewrite app_nil_r.
  - unfold mbind, M_bind, client_Do.
    fold imdsClient (metadataRequest token path).
    destruct (RoundTrip (conn s) imdsClient (metadataRequest token path))
      as [o c'] eqn:Hrt.
    exists [mkExchange imdsClient (metadataRequest token path) o], c'.
    assert (Call imdsClient (metadataRequest token path) (metadataStatusError path)
              (conn s) [mkExchange imdsClient (metadataRequest token path) o]
              c' (classify (metadataStatusError path) o)) as Hcall
      by by constructor.
    destruct o as [resp|err]; simpl in *; [|done].
    case_decide; [done|]. by destruct (read_err _).
Qed.

(** Every run of [GetEC2InstanceMetadata] follows one of the three
    paths. *)
Lemma GetEC2InstanceMetadata_path (c : Conn) :
  Path c (exchanges GetEC2InstanceMetadata c)
         (returned GetEC2InstanceMetadata c).
Proof.
  unfold exchanges, returned, run, GetEC2InstanceMetadata, mbind, M_bind.
  set (s0 := {| conn := c; trace := [] |}).
  destruct (getIMDSToken_call s0) as (t1 & c1 & Hc1 & Hs1).
  destruct (getIMDSToken s0) as [[token [err|]] s1]; simpl in *; subst s1.
  { eapply path_token_error. exact Hc1. }
  set (s1 := {| conn := c1; trace := t1 |}).
  destruct (getMetadata_call token "instance-id" s1) as (t2 & c2 & Hc2 & Hs2).
  destruct (getMetadata token "instance-id" s1) as [[instanceID [err|]] s2];
    simpl in *; subst s2.
  { eapply path_instance_id_error; eauto. }
  set (s2 := {| conn := c2; trace := t1 ++ t2 |}).
  destruct (getMetadata_call token "instance-life-cycle" s2)
    as (t3 & c3 & Hc3 & Hs3).
  destruct (getMetadata token "instance-life-cycle" s2) as [[v err] s3];
    simpl in *; subst s3. simpl. rewrite <- (assoc_L (++)).
  eapply path_completed; eauto.
Qed.

Lemma Call_inv (client : Client) (req : Request) (f : Z → error)
    (c c' : Conn) (t : list Exchange) (r : string * option error) :
  Call client req f c t c' r →
  (t = [] ∧ ∃ err, r = ("", Some err) ∧ url_Parse (URL req) = Some err)
  ∨ (∃ o, t = [mkExchange client req o] ∧ r = classify f o
          ∧ url_Parse (URL req) = None
          ∧ RoundTrip c client req = (o, c')).
Proof. destruct 1; [left|right]; eauto 10. Qed.

Tactic Notation "inv_call" hyp(Hc) "as" ident(o) ident(Hr) :=
  apply Call_inv in Hc as [[-> (? & ? & ?)]|(o & -> & Hr & _ & _)].

(** The map the last path returns has exactly the two production keys. *)
Lemma metadata_two_entries (instanceID lifecycle : string)
    (metadata : gmap string string) :
  metadata = <["node-lifecycle" := lifecycle]>
               (<["alpha.eksctl.io/instance-id" := instanceID]> ∅) →
  metadata !! "alpha.eksctl.io/instance-id" = Some instanceID
  ∧ metadata !! "node-lifecycle" = Some lifecycle
  ∧ dom metadata = {["alpha.eksctl.io/instance-id"; "node-lifecycle"]}
  ∧ size metadata = 2%nat.
Proof.
  intros ->. split_and!.
  - by rewrite lookup_insert_ne, lookup_insert_eq.
  - by rewrite lookup_insert_eq.
  - rewrite !dom_insert_L, dom_empty_L. set_solver.
  - rewrite map_size_insert_None, map_size_insert_None, map_size_empty;
      [done|done|].
    by rewrite lookup_insert_ne, lookup_empty.
Qed.

(** *** The public operation *)

(** C1: in every execution in which the token request, the instance-id
    read and the instance-life-cycle read all return HTTP 200, the
    function returns a nil error and a map with exactly two entries:
    "alpha.eksctl.io/instance-id" bound to the raw body of the
    instance-id response and "node-lifecycle" bound to the raw body of
    the lifecycle response. *)
Theorem GetEC2InstanceMetadata_all_200 (c : Conn)
    (tokResp idResp lcResp : Response) (instanceID lifecycle : string) :
  outcomes GetEC2InstanceMetadata c = [Ok tokResp; Ok idResp; Ok lcResp] →
  StatusCode tokResp = StatusOK →
  StatusCode idResp = StatusOK →
  StatusCode lcResp = StatusOK →
  io.ReadAll (Body_ idResp) = (instanceID, None) →
  io.ReadAll (Body_ lcResp) = (lifecycle, None) →
  ∃ metadata : gmap string string,
    returned GetEC2InstanceMetadata c = (Some metadata, None)
    ∧ metadata !! "alpha.eksctl.io/instance-id" = Some instanceID
    ∧ metadata !! "node-lifecycle" = Some lifecycle
    ∧ dom metadata = {["alpha.eksctl.io/instance-id"; "node-lifecycle"]}
    ∧ size metadata = 2%nat.
Proof.
  intros Ho Htok Hid Hlc Hbid Hblc. unfold outcomes in Ho.
  destruct (GetEC2InstanceMetadata_path c)
    as [t1 c1 v err P1|t1 c1 token t2 c2 v err P1 P2
       |t1 c1 token t2 c2 iid t3 c3 v err P1 P2 P3].
  - inv_call P1 as o1 R1; simplify_eq/=.
  - inv_call P1 as o1 R1; inv_call P2 as o2 R2; simplify_eq/=.
  - inv_call P1 as o1 R1; inv_call P2 as o2 R2; inv_call P3 as o3 R3;
      simpl in Ho; simplify_eq.
    assert (classify (metadataStatusError "instance-id") (Ok idResp)
            = (instanceID, None)) as Hcid by (apply classify_ok; eauto).
    assert (classify (metadataStatusError "instance-life-cycle") (Ok lcResp)
            = (lifecycle, None)) as Hclc by (apply classify_ok; eauto).
    rewrite Hcid in R2. rewrite Hclc in R3. simplify_eq.
    eexists. split; [done|]. by eapply metadata_two_entries.
Qed.

(** C2: in every execution in which the token request and the
    instance-id read return HTTP 200 but the instance-life-cycle read
    fails (a status other than 200, or a network error), the function
    returns a nil error and a map whose "node-lifecycle" value is the
    literal "on-demand"; the failure does not reach the caller. *)
Theorem GetEC2InstanceMetadata_lifecycle_failure (c : Conn)
    (tokResp idResp : Response) (lcOutcome : go_result Response) :
  outcomes GetEC2InstanceMetadata c = [Ok tokResp; Ok idResp; lcOutcome] →
  StatusCode tokResp = StatusOK →
  StatusCode idResp = StatusOK →
  failed lcOutcome = true →
  ∃ metadata : gmap string string,
    returned GetEC2InstanceMetadata c = (Some metadata, None)
    ∧ metadata !! "node-lifecycle" = Some "on-demand"
    ∧ metadata !! "alpha.eksctl.io/instance-id"
      = Some (bytes (Body_ idResp))
    ∧ size metadata = 2%nat.
Proof.
  intros Ho Htok Hid Hlc. unfold outcomes in Ho.
  destruct (GetEC2InstanceMetadata_path c)
    as [t1 c1 v err P1|t1 c1 token t2 c2 v err P1 P2
       |t1 c1 token t2 c2 iid t3 c3 v err P1 P2 P3].
  - inv_call P1 as o1 R1; simplify_eq/=.
  - inv_call P1 as o1 R1; inv_call P2 as o2 R2; simplify_eq/=.
  - inv_call P1 as o1 R1; inv_call P2 as o2 R2; inv_call P3 as o3 R3;
      simpl in Ho; simplify_eq.
    apply (classify_failed (metadataStatusError "instance-life-cycle"))
      in Hlc as [e He].
    symmetry in R2. apply classify_ok in R2 as (r & [= <-] & _ & [= <- _]).
    rewrite He in R3. simplify_eq.
    eexists. split; [done|].
    edestruct (metadata_two_entries (bytes (Body_ idResp)) "on-demand")
      as (Hi & Hl & _ & Hsz); [reflexivity|].
    exact (conj Hl (conj Hi Hsz)).
Qed.

(** C3: in every execution in which the token request returns a status
    other than 200 (or a network error), the function returns a non-nil
    error and no metadata-read request is issued: the token request is
    the only call of [client.Do]. *)
Theorem GetEC2InstanceMetadata_token_failure (c : Conn)
    (o : go_result Response) (rest : list (go_result Response)) :
  outcomes GetEC2InstanceMetadata c = o :: rest →
  failed o = true →
  (∃ err, returned GetEC2InstanceMetadata c = (None, Some err))
  ∧ rest = []
  ∧ requests GetEC2InstanceMetadata c = [tokenRequest]
  ∧ ∀ req, req ∈ requests GetEC2InstanceMetadata c →
      Method_ req = MethodPut
      ∧ URL req = "http://169.254.169.254/latest/api/token".
Proof.
  intros Ho Hfail. unfold outcomes, requests in *.
  apply (classify_failed tokenStatusError) in Hfail as [e He].
  destruct (GetEC2InstanceMetadata_path c)
    as [t1 c1 v err P1|t1 c1 token t2 c2 v err P1 P2
       |t1 c1 token t2 c2 iid t3 c3 v err P1 P2 P3].
  - inv_call P1 as o1 R1; simplify_eq/=.
    split_and!; eauto. by intros req ->%list_elem_of_singleton.
  - inv_call P1 as o1 R1; [done|].
    inv_call P2 as o2 R2; simpl in Ho; simplify_eq; congruence.
  - inv_call P1 as o1 R1; [done|].
    inv_call P2 as o2 R2; inv_call P3 as o3 R3;
      simpl in Ho; simplify_eq; congruence.
Qed.

(** C4: in every execution in which the token request returns HTTP 200
    but the instance-id read returns a status other than 200 (or a
    network error), the function returns a non-nil error and a nil map,
    and the instance-life-cycle read is not attempted. *)
Theorem GetEC2InstanceMetadata_instance_id_failure (c : Conn)
    (tokResp : Response) (o : go_result Response)
    (rest : list (go_result Response)) :
  outcomes GetEC2InstanceMetadata c = Ok tokResp :: o :: rest →
  StatusCode tokResp = StatusOK →
  failed o = true →
  (∃ err, returned GetEC2InstanceMetadata c = (None, Some err))
  ∧ rest = []
  ∧ (∃ token, requests GetEC2InstanceMetadata c
              = [tokenRequest; metadataRequest token "instance-id"])
  ∧ ∀ req, req ∈ requests GetEC2InstanceMetadata c →
      URL req ≠ "http://169.254.169.254/latest/meta-data/instance-life-cycle".
Proof.
  intros Ho Htok Hfail. unfold outcomes, requests in *.
  apply (classify_failed (metadataStatusError "instance-id"))
    in Hfail as [e He].
  destruct (GetEC2InstanceMetadata_path c)
    as [t1 c1 v err P1|t1 c1 token t2 c2 v err P1 P2
       |t1 c1 token t2 c2 iid t3 c3 v err P1 P2 P3].
  - inv_call P1 as o1 R1; simplify_eq/=.
  - inv_call P1 as o1 R1; [done|].
    inv_call P2 as o2 R2; simpl in Ho; simplify_eq.
    split_and!; eauto.
    intros req [->| ->%list_elem_of_singleton]%elem_of_cons; done.
  - inv_call P1 as o1 R1; [done|].
    inv_call P2 as o2 R2; [done|].
    inv_call P3 as o3 R3; simpl in Ho; simplify_eq; congruence.
Qed.

Lemma Header_Get_Set (req : Request) (key value : string) :
  Header_Get (Header_Set req key value) key = value
  ∧ Header (Header_Set req key value) !! CanonicalMIMEHeaderKey key
    = Some [value].
Proof. unfold Header_Get, Header_Set. simpl. by rewrite lookup_insert_eq. Qed.

(** C5: in every execution in which the token request succeeds, every
    later request (the metadata reads for instance-id and
    instance-life-cycle) carries in its "X-aws-ec2-metadata-token"
    header exactly the raw body of the token response. *)
Theorem GetEC2InstanceMetadata_reads_carry_token (c : Conn)
    (tokResp : Response) (token : string)
    (rest : list (go_result Response)) :
  outcomes GetEC2InstanceMetadata c = Ok tokResp :: rest →
  StatusCode tokResp = StatusOK →
  io.ReadAll (Body_ tokResp) = (token, None) →
  ∃ reads,
    requests GetEC2InstanceMetadata c = tokenRequest :: reads
    ∧ ∀ req, req ∈ reads →
        Method_ req = MethodGet
        ∧ Header_Get req "X-aws-ec2-metadata-token" = token
        ∧ Header req !! CanonicalMIMEHeaderKey "X-aws-ec2-metadata-token"
          = Some [token].
Proof.
  intros Ho Hst Hbody. unfold outcomes, requests in *.
  assert (classify tokenStatusError (Ok tokResp) = (token, None)) as Hc
    by (apply classify_ok; eauto).
  assert (∀ path req, req = metadataRequest token path →
            Method_ req = MethodGet
            ∧ Header_Get req "X-aws-ec2-metadata-token" = token
            ∧ Header req !! CanonicalMIMEHeaderKey "X-aws-ec2-metadata-token"
              = Some [token]) as Hread.
  { intros path req ->. split; [done|]. apply Header_Get_Set. }
  destruct (GetEC2InstanceMetadata_path c)
    as [t1 c1 v err P1|t1 c1 tok t2 c2 v err P1 P2
       |t1 c1 tok t2 c2 iid t3 c3 v err P1 P2 P3].
  - inv_call P1 as o1 R1; simplify_eq/=. congruence.
  - inv_call P1 as o1 R1; [done|].
    inv_call P2 as o2 R2; simpl in Ho; simplify_eq;
      rewrite Hc in R1; simplify_eq; simpl; eexists; (split; [done|]).
    + by intros req ?%elem_of_nil.
    + intros req ->%list_elem_of_singleton. by eapply Hread.
  - inv_call P1 as o1 R1; [done|].
    inv_call P2 as o2 R2; [done|].
    inv_call P3 as o3 R3; simpl in Ho; simplify_eq;
      rewrite Hc in R1; simplify_eq; simpl; eexists; (split; [done|]).
    + intros req ->%list_elem_of_singleton. by eapply Hread.
    + intros req [->| ->%list_elem_of_singleton]%elem_of_cons;
        by eapply Hread.
Qed.

(** *** The token helper *)

(** C6: getIMDSToken issues exactly one HTTP PUT request to
    http://169.254.169.254/latest/api/token with the header
    "X-aws-ec2-metadata-token-ttl-seconds" set to "600"; if the response
    status is not 200 it returns an error whose message carries the
    status code, and otherwise it returns the full response body as the
    token.  (The URL is a constant of the code; that it parses is what
    lets the request be built.  The last two conjuncts record what is
    returned when no full response arrives.) *)
Theorem getIMDSToken_spec (c : Conn) :
  url_Parse "http://169.254.169.254/latest/api/token" = None →
  ∃ req o,
    exchanges getIMDSToken c = [mkExchange imdsClient req o]
    ∧ Method_ req = MethodPut
    ∧ URL req = "http://169.254.169.254/latest/api/token"
    ∧ Header_Get req "X-aws-ec2-metadata-token-ttl-seconds" = "600"
    ∧ (∀ resp, o = Ok resp → StatusCode resp ≠ StatusOK →
         ∃ err, returned getIMDSToken c = ("", Some err)
                ∧ Error err = "failed to get token, status code: "
                              +:+ pretty (StatusCode resp))
    ∧ (∀ resp token, o = Ok resp → StatusCode resp = StatusOK →
         io.ReadAll (Body_ resp) = (token, None) →
         returned getIMDSToken c = (token, None))
    ∧ (∀ err, o = Err err → returned getIMDSToken c = ("", Some err))
    ∧ (∀ resp err, o = Ok resp → StatusCode resp = StatusOK →
         read_err (Body_ resp) = Some err →
         returned getIMDSToken c = ("", Some err)).
Proof.
  intros Hurl. unfold exchanges, returned, run.
  set (s0 := {| conn := c; trace := [] |}).
  destruct (getIMDSToken_call s0) as (t & c' & Hcall & Hs).
  destruct (getIMDSToken s0) as [r s1]; simpl in *; subst s1; simpl.
  destruct Hcall as [err Hbad|o c1 _ Hrt]; [simpl in Hbad; congruence|].
  exists tokenRequest, o. split; [done|]. split; [done|]. split; [done|].
  split; [apply Header_Get_Set|].
  split_and!.
  - intros resp -> Hst. simpl. case_decide; [|done]. eauto.
  - intros resp token -> Hst Hbody. by apply classify_ok; eauto.
  - by intros err ->.
  - intros resp err -> Hst Hrd. simpl. case_decide; [done|]. by rewrite Hrd.
Qed.

(** *** Errors of the public operation *)

(** C7: every error [GetEC2InstanceMetadata] returns is the error of the
    stage that failed, wrapped with that stage's description ("failed to
    get IMDS token" or "failed to get instance ID"); the cause is
    preserved and can be recovered with [Unwrap]. *)
Theorem GetEC2InstanceMetadata_errors_wrapped (c : Conn) (e : error) :
  (returned GetEC2InstanceMetadata c).2 = Some e →
  ∃ stage cause,
    Error e = stage +:+ ": " +:+ Error cause
    ∧ Unwrap e = Some cause
    ∧ cause ∈ chain e
    ∧ ((stage = "failed to get IMDS token"
        ∧ (returned getIMDSToken c).2 = Some cause)
       ∨ (stage = "failed to get instance ID"
          ∧ ∃ token s1,
              getIMDSToken {| conn := c; trace := [] |} = ((token, None), s1)
              ∧ (getMetadata token "instance-id" s1).1.2 = Some cause)).
Proof.
  unfold returned, run, GetEC2InstanceMetadata, mbind, M_bind.
  destruct (getIMDSToken _) as [[token [err|]] s1] eqn:Htok; simpl.
  - intros [= <-]. exists "failed to get IMDS token", err.
    split_and!; [done|done| |by left].
    simpl. apply elem_of_cons. right. destruct err; apply elem_of_cons; by left.
  - destruct (getMetadata token "instance-id" s1)
      as [[instanceID [err|]] s2] eqn:Hid; simpl.
    + intros [= <-]. exists "failed to get instance ID", err.
      split_and!; [done|done| |].
      * simpl. apply elem_of_cons. right.
        destruct err; apply elem_of_cons; by left.
      * right. split; [done|]. exists token, s1. by rewrite Hid.
    + by destruct (getMetadata token "instance-life-cycle" s2) as [[? ?] ?].
Qed.

(** C8: whenever [GetEC2InstanceMetadata] returns a non-nil error the
    map it returns is nil; and no returned map holds the instance-id
    entry without the lifecycle entry. *)
Theorem GetEC2InstanceMetadata_error_nil_map (c : Conn) :
  ((returned GetEC2InstanceMetadata c).2 ≠ None →
     (returned GetEC2InstanceMetadata c).1 = None)
  ∧ (∀ metadata : gmap string string,
       (returned GetEC2InstanceMetadata c).1 = Some metadata →
       is_Some (metadata !! "alpha.eksctl.io/instance-id") →
       is_Some (metadata !! "node-lifecycle")).
Proof.
  destruct (GetEC2InstanceMetadata_path c)
    as [t1 c1 v err P1|t1 c1 token t2 c2 v err P1 P2
       |t1 c1 token t2 c2 iid t3 c3 v err P1 P2 P3]; simpl.
  - split; [done|]. by intros metadata [=].
  - split; [done|]. by intros metadata [=].
  - split; [done|]. intros metadata [= <-] _.
    rewrite lookup_insert_eq. eauto.
Qed.

(** *** The test variant *)

Lemma classify_value (f : Z → error) (o : go_result Response) (v : string) :
  classify f o = (v, None) → failed o = false ∧ v = reply_body o.
Proof.
  intros Hc. split.
  - destruct (failed o) eqn:Hf; [|done].
    apply (classify_failed f) in Hf as [e He]. congruence.
  - apply classify_ok in Hc as (resp & -> & _ & [= <- _]). done.
Qed.

Lemma classify_error (f : Z → error) (o : go_result Response)
    (v : string) (e : error) :
  classify f o = (v, Some e) → failed o = true.
Proof.
  intros Hc. apply (classify_failed f).
  destruct (classify_error_or_value f o) as [[e' He']|[v' Hv']];
    [eauto|congruence].
Qed.

Lemma getMetadataFromURL_call (client : Client)
    (token serverURL path : string) (s : State) :
  ∃ t c', Call client (metadataRequestAt serverURL token path)
            (metadataStatusError path) (conn s) t c'
            (getMetadataFromURL client token serverURL path s).1
          ∧ (getMetadataFromURL client token serverURL path s).2
            = {| conn := c'; trace := trace s ++ t |}.
Proof.
  unfold getMetadataFromURL, NewRequest.
  destruct (url_Parse _) as [err|] eqn:Hurl.
  - exists [], (conn s). split; [by constructor|].
    destruct s; simpl. by rewrite app_nil_r.
  - unfold mbind, M_bind, client_Do.
    fold (metadataRequestAt serverURL token path).
    set (req := metadataRequestAt serverURL token path) in *.
    destruct (RoundTrip (conn s) client req) as [o c'] eqn:Hrt.
    exists [mkExchange client req o], c'.
    assert (Call client req (metadataStatusError path) (conn s)
              [mkExchange client req o] c'
              (classify (metadataStatusError path) o)) as Hcall
      by by constructor.
    destruct o as [resp|err]; simpl in *; [|done].
    case_decide; [done|]. by destruct (read_err _).
Qed.

(** What the production function returns is decided by the outcomes it
    saw. *)
Lemma GetEC2InstanceMetadata_observed (c : Conn) :
  match observed (outcomes GetEC2InstanceMetadata c) with
  | Some (instanceID, lifecycle) =>
    returned GetEC2InstanceMetadata c =
      (Some (<["node-lifecycle" := lifecycle]>
               (<["alpha.eksctl.io/instance-id" := instanceID]> ∅)), None)
  | None =>
    ∃ err, returned GetEC2InstanceMetadata c = (None, Some err)
  end.
Proof.
  unfold outcomes.
  destruct (GetEC2InstanceMetadata_path c)
    as [t1 c1 v err P1|t1 c1 token t2 c2 v err P1 P2
       |t1 c1 token t2 c2 iid t3 c3 v err P1 P2 P3].
  - inv_call P1 as o1 R1; simpl; eauto.
  - inv_call P1 as o1 R1; [done|].
    inv_call P2 as o2 R2; simpl; [eauto|].
    symmetry in R2. apply classify_error in R2 as ->. eauto.
  - inv_call P1 as o1 R1; [done|].
    inv_call P2 as o2 R2; [done|].
    symmetry in R2. apply classify_value in R2 as [Hf2 ->].
    inv_call P3 as o3 R3; simpl; rewrite Hf2; simplify_eq; [done|].
    destruct err as [e|]; symmetry in R3.
    + by apply classify_error in R3 as ->.
    + by apply classify_value in R3 as [-> ->].
Qed.

(** So is what the test variant returns, under its own key names. *)
Lemma testGetEC2InstanceMetadata_observed (serverURL : string) (c : Conn) :
  match observed (outcomes (testGetEC2InstanceMetadata serverURL) c) with
  | Some (instanceID, lifecycle) =>
    returned (testGetEC2InstanceMetadata serverURL) c =
      (Some (<["instance-lifecycle" := lifecycle]>
               (<["instance-id" := instanceID]> ∅)), None)
  | None =>
    ∃ err, returned (testGetEC2InstanceMetadata serverURL) c
           = (None, Some err)
  end.
Proof.
  unfold outcomes, exchanges, returned.
  destruct (run (testGetEC2InstanceMetadata serverURL) c) as [r t] eqn:Hrun.
  revert Hrun. unfold run, testGetEC2InstanceMetadata, NewRequest. simpl.
  destruct (url_Parse _) as [err|]; [intros [= <- <-]; simpl; eauto|].
  unfold mbind, M_bind, client_Do. simpl.
  destruct (RoundTrip c _ _) as [[resp|err] c1];
    [|intros [= <- <-]; simpl; eauto].
  case_decide; [intros [= <- <-]; simpl; eauto|].
  unfold io.ReadAll.
  destruct (read_err (Body_ resp)); [intros [= <- <-]; simpl; eauto|].
  match goal with
  | |- context [getMetadataFromURL ?cl ?tok ?u "instance-id" ?s] =>
      destruct (getMetadataFromURL_call cl tok u "instance-id" s)
        as (t2 & c2 & P2 & Hs2);
      destruct (getMetadataFromURL cl tok u "instance-id" s)
        as [[instanceID [err|]] s2]; simpl in *; subst s2
  end.
  - intros [= <- <-].
    inv_call P2 as o2 R2; simpl; [eauto|].
    symmetry in R2. apply classify_error in R2 as ->. eauto.
  - inv_call P2 as o2 R2; [done|].
    symmetry in R2. apply classify_value in R2 as [Hf2 ->].
    match goal with
    | |- context [getMetadataFromURL ?cl ?tok ?u "instance-life-cycle" ?s] =>
        destruct (getMetadataFromURL_call cl tok u "instance-life-cycle" s)
          as (t3 & c3 & P3 & Hs3);
        destruct (getMetadataFromURL cl tok u "instance-life-cycle" s)
          as [[v err] s3]; simpl in *; subst s3
    end.
    intros [= <- <-].
    inv_call P3 as o3 R3; simpl; rewrite Hf2; simplify_eq; [done|].
    destruct err as [e|]; symmetry in R3.
    + by apply classify_error in R3 as ->.
    + by apply classify_value in R3 as [-> ->].
Qed.

#[local] Instance production_key_inj : Inj (=) (=) production_key.
Proof.
  assert (∀ key, production_key (production_key key) = key) as Hinv.
  { intros key. unfold production_key.
    repeat (case_decide; simplify_eq; try done). }
  intros k1 k2 Hk. by rewrite <- (Hinv k1), Hk.
Qed.

Lemma kmap_production_key (instanceID lifecycle : string) :
  with_production_keys
    (<["instance-lifecycle" := lifecycle]> (<["instance-id" := instanceID]> ∅))
  = <["node-lifecycle" := lifecycle]>
      (<["alpha.eksctl.io/instance-id" := instanceID]> ∅).
Proof.
  unfold with_production_keys.
  rewrite !kmap_insert, kmap_empty; [done|apply production_key_inj..].
Qed.

(** C9: run against the same sequence of HTTP responses, the test variant
    [testGetEC2InstanceMetadata] and the production function return an
    error in the same cases and the same values, the production map
    being the test map with "instance-id" renamed to
    "alpha.eksctl.io/instance-id" and "instance-lifecycle" renamed to
    "node-lifecycle". *)
Theorem testGetEC2InstanceMetadata_agrees (serverURL : string)
    (c c' : Conn) :
  outcomes (testGetEC2InstanceMetadata serverURL) c'
    = outcomes GetEC2InstanceMetadata c →
  ((returned (testGetEC2InstanceMetadata serverURL) c').2 = None
     ↔ (returned GetEC2InstanceMetadata c).2 = None)
  ∧ (returned GetEC2InstanceMetadata c).1
    = with_production_keys
        <$> (returned (testGetEC2InstanceMetadata serverURL) c').1
  ∧ ∀ tested metadata : gmap string string,
      (returned (testGetEC2InstanceMetadata serverURL) c').1 = Some tested →
      (returned GetEC2InstanceMetadata c).1 = Some metadata →
      tested !! "instance-id" = metadata !! "alpha.eksctl.io/instance-id"
      ∧ tested !! "instance-lifecycle" = metadata !! "node-lifecycle"
      ∧ size tested = size metadata.
Proof.
  intros Ho.
  pose proof (testGetEC2InstanceMetadata_observed serverURL c') as Ht.
  pose proof (GetEC2InstanceMetadata_observed c) as Hp.
  rewrite Ho in Ht.
  destruct (observed (outcomes GetEC2InstanceMetadata c))
    as [[instanceID lifecycle]|].
  - rewrite Ht, Hp. simpl. split; [done|].
    split; [by rewrite kmap_production_key|].
    intros tested metadata [= <-] [= <-].
    edestruct (metadata_two_entries instanceID lifecycle)
      as (Hi & Hl & _ & Hsz); [reflexivity|].
    rewrite Hi, Hl, Hsz.
    rewrite lookup_insert_ne, !lookup_insert_eq by done.
    split_and!; [done|done|].
    rewrite map_size_insert_None, map_size_insert_None, map_size_empty;
      [done|done|].
    by rewrite lookup_insert_ne, lookup_empty.
  - destruct Ht as [e ->], Hp as [e' ->]. simpl.
    split; [done|]. split; [done|]. by intros tested metadata [=].
Qed.

(** *** No validation of the token *)

(** A helper call is determined by the state of the peer it starts in. *)
Lemma Call_deterministic (client : Client) (req : Request) (f : Z → error)
    (c c1 c2 : Conn) (t1 t2 : list Exchange) (r1 r2 : string * option error) :
  Call client req f c t1 c1 r1 → Call client req f c t2 c2 r2 →
  t1 = t2 ∧ c1 = c2 ∧ r1 = r2.
Proof.
  destruct 1 as [e1 Hu1|o1 c1' Hu1 Hr1], 1 as [e2 Hu2|o2 c2' Hu2 Hr2];
    simplify_eq; try done.
  rewrite Hr1 in Hr2. by simplify_eq.
Qed.

Lemma Call_getIMDSToken (c c1 : Conn) (t : list Exchange)
    (r : string * option error) :
  Call imdsClient tokenRequest tokenStatusError c t c1 r →
  returned getIMDSToken c = r ∧ exchanges getIMDSToken c = t.
Proof.
  intros Hcall. unfold returned, exchanges, run.
  destruct (getIMDSToken_call {| conn := c; trace := [] |})
    as (t' & c' & Hcall' & Hs).
  destruct (getIMDSToken _) as [r' s']. simpl in *. subst s'.
  by destruct (Call_deterministic _ _ _ _ _ _ _ _ _ _ Hcall Hcall')
    as (-> & _ & ->).
Qed.

(** C10, as amended: the token is not validated.  If the token request
    returns HTTP 200 with an empty body, getIMDSToken returns the empty
    string with a nil error, and GetEC2InstanceMetadata goes on to issue
    the instance-id read with an empty "X-aws-ec2-metadata-token" header
    instead of failing early.  The instance-life-cycle read follows,
    with an empty header too, when the instance-id read succeeds; when
    the instance-id read fails, no further request is issued.  (The two
    metadata URLs are constants of the code; that they parse is what
    lets the requests be built.) *)
Theorem GetEC2InstanceMetadata_empty_token (c : Conn) (tokResp : Response)
    (rest : list (go_result Response)) :
  outcomes GetEC2InstanceMetadata c = Ok tokResp :: rest →
  StatusCode tokResp = StatusOK →
  io.ReadAll (Body_ tokResp) = ("", None) →
  url_Parse "http://169.254.169.254/latest/meta-data/instance-id" = None →
  url_Parse "http://169.254.169.254/latest/meta-data/instance-life-cycle"
    = None →
  returned getIMDSToken c = ("", None)
  ∧ ∃ o2 rest' read_id later,
      rest = o2 :: rest'
      ∧ requests GetEC2InstanceMetadata c = tokenRequest :: read_id :: later
      ∧ Method_ read_id = MethodGet
      ∧ URL read_id = "http://169.254.169.254/latest/meta-data/instance-id"
      ∧ Header_Get read_id "X-aws-ec2-metadata-token" = ""
      ∧ (failed o2 = true → later = [])
      ∧ (failed o2 = false →
           ∃ read_lc,
             later = [read_lc]
             ∧ Method_ read_lc = MethodGet
             ∧ URL read_lc
               = "http://169.254.169.254/latest/meta-data/instance-life-cycle"
             ∧ Header_Get read_lc "X-aws-ec2-metadata-token" = "").
Proof.
  intros Ho Hst Hbody Hu2 Hu3. unfold outcomes, requests in *.
  assert (classify tokenStatusError (Ok tokResp) = ("", None)) as Hc
    by (apply classify_ok; eauto).
  assert (∀ path, Header_Get (metadataRequest "" path)
                    "X-aws-ec2-metadata-token" = "") as Hhdr
    by (intros path; apply Header_Get_Set).
  destruct (GetEC2InstanceMetadata_path c)
    as [t1 c1 v err P1|t1 c1 token t2 c2 v err P1 P2
       |t1 c1 token t2 c2 iid t3 c3 v err P1 P2 P3].
  - inv_call P1 as o1 R1; simplify_eq/=. congruence.
  - pose proof (Call_getIMDSToken _ _ _ _ P1) as [Hret _].
    inv_call P1 as o1 R1; [done|].
    apply Call_inv in P2 as [(-> & e2 & _ & Hbad)|(o2 & -> & R2 & _ & _)].
    { change (url_Parse "http://169.254.169.254/latest/meta-data/instance-id"
              = Some e2) in Hbad. congruence. }
    simpl in Ho. simplify_eq. rewrite Hc in R1. simplify_eq.
    split; [by rewrite Hret|].
    symmetry in R2. apply classify_error in R2.
    eexists o2, [], _, []. split_and!; try done; [apply Hhdr|].
    intros ?. congruence.
  - pose proof (Call_getIMDSToken _ _ _ _ P1) as [Hret _].
    inv_call P1 as o1 R1; [done|].
    inv_call P2 as o2 R2; [done|].
    apply Call_inv in P3 as [(-> & e3 & _ & Hbad)|(o3 & -> & R3 & _ & _)].
    { change (url_Parse
                "http://169.254.169.254/latest/meta-data/instance-life-cycle"
              = Some e3) in Hbad. congruence. }
    simpl in Ho. simplify_eq. rewrite Hc in R1. simplify_eq.
    split; [by rewrite Hret|].
    symmetry in R2. apply classify_value in R2 as [Hf2 _].
    eexists o2, [o3], _, [_]. split_and!; try done; [apply Hhdr| |].
    + intros ?. congruence.
    + intros _. eexists. split_and!; try done. apply Hhdr.
Qed.

(** *** More on the helpers *)

(** X1: getMetadata issues exactly one HTTP GET request to
    http://169.254.169.254/latest/meta-data/ followed by the path, with
    the token in the "X-aws-ec2-metadata-token" header and the 5 second
    client; a status other than 200 gives an error whose message names the
    path and the status code, a 200 reply that is read to its end gives
    the body, and a network error (of [client.Do] or of the body read) is
    returned as it is.  (That the URL parses is what lets the request be
    built.) *)
Theorem getMetadata_spec (token path : string) (c : Conn) :
  url_Parse ("http://169.254.169.254/latest/meta-data/" +:+ path) = None →
  ∃ req o,
    exchanges (getMetadata token path) c = [mkExchange imdsClient req o]
    ∧ Method_ req = MethodGet
    ∧ URL req = "http://169.254.169.254/latest/meta-data/" +:+ path
    ∧ Header_Get req "X-aws-ec2-metadata-token" = token
    ∧ (∀ resp, o = Ok resp → StatusCode resp ≠ StatusOK →
         ∃ err, returned (getMetadata token path) c = ("", Some err)
                ∧ Error err = "failed to get metadata for " +:+ path
                              +:+ ", status code: "
                              +:+ pretty (StatusCode resp))
    ∧ (∀ resp data, o = Ok resp → StatusCode resp = StatusOK →
         io.ReadAll (Body_ resp) = (data, None) →
         returned (getMetadata token path) c = (data, None))
    ∧ (∀ err, network_error o = Some err →
         returned (getMetadata token path) c = ("", Some err)).
Proof.
  intros Hurl. unfold exchanges, returned, run.
  set (s0 := {| conn := c; trace := [] |}).
  destruct (getMetadata_call token path s0) as (t & c' & Hcall & Hs).
  destruct (getMetadata token path s0) as [r s1]; simpl in *; subst s1; simpl.
  apply Call_inv in Hcall as [(-> & e & _ & Hbad)|(o & -> & -> & _ & _)].
  { change (url_Parse ("http://169.254.169.254/latest/meta-data/" +:+ path)
            = Some e) in Hbad. congruence. }
  exists (metadataRequest token path), o.
  split; [done|]. split; [done|]. split; [done|].
  split; [apply Header_Get_Set|]. split_and!.
  - intros resp -> Hst. simpl. case_decide; [|done]. eauto.
  - intros resp data -> Hst Hbody. by apply classify_ok; eauto.
  - intros err. destruct o as [resp|e]; simpl; [|by intros [= ->]].
    case_decide; [done|]. by intros ->.
Qed.

(** X2: whenever getIMDSToken or getMetadata returns a non-nil error, the
    string it returns with it is empty. *)
Theorem helpers_error_empty_value (token path : string) (s : State)
    (v : string) (err : error) :
  ((getIMDSToken s).1 = (v, Some err) → v = "")
  ∧ ((getMetadata token path s).1 = (v, Some err) → v = "").
Proof.
  assert (∀ client req f c0 t c' r, Call client req f c0 t c' r →
            r = (v, Some err) → v = "") as Hcall.
  { intros client req f c0 t c' r Hc ->.
    apply Call_inv in Hc as [(_ & e & [= -> _] & _)|(o & _ & Ho & _)];
      [done|].
    destruct (classify_error_or_value f o) as [[e He]|[v' Hv]];
      congruence. }
  split.
  - destruct (getIMDSToken_call s) as (t & c' & Hc & _). eauto.
  - destruct (getMetadata_call token path s) as (t & c' & Hc & _). eauto.
Qed.

(** *** More on the public operation *)

(** X3: [GetEC2InstanceMetadata] never retries and never reorders: the
    requests it issues are an initial part of the token request, the
    instance-id read and the instance-life-cycle read, in this order, the
    two reads carrying the token that getIMDSToken returned. *)
Theorem GetEC2InstanceMetadata_requests_in_order (c : Conn) :
  requests GetEC2InstanceMetadata c
  `prefix_of`
  [tokenRequest;
   metadataRequest (returned getIMDSToken c).1 "instance-id";
   metadataRequest (returned getIMDSToken c).1 "instance-life-cycle"].
Proof.
  unfold requests.
  destruct (GetEC2InstanceMetadata_path c)
    as [t1 c1 v err P1|t1 c1 token t2 c2 v err P1 P2
       |t1 c1 token t2 c2 iid t3 c3 v err P1 P2 P3];
    destruct (Call_getIMDSToken _ _ _ _ P1) as [-> _]; simpl.
  - inv_call P1 as o1 R1; simpl; [apply prefix_nil|].
    by eexists [_; _].
  - inv_call P1 as o1 R1; [done|].
    inv_call P2 as o2 R2; simpl; [by eexists [_; _]|by eexists [_]].
  - inv_call P1 as o1 R1; [done|].
    inv_call P2 as o2 R2; [done|].
    inv_call P3 as o3 R3; simpl; [by eexists [_]|by exists []].
Qed.

(** X4: every call of [client.Do] that [GetEC2InstanceMetadata] makes uses
    a client whose timeout is 5 seconds. *)
Theorem GetEC2InstanceMetadata_timeout (c : Conn) :
  Forall (λ ex, Timeout (ex_client ex) = 5000000000)
    (exchanges GetEC2InstanceMetadata c).
Proof.
  destruct (GetEC2InstanceMetadata_path c)
    as [t1 c1 v err P1|t1 c1 token t2 c2 v err P1 P2
       |t1 c1 token t2 c2 iid t3 c3 v err P1 P2 P3].
  - inv_call P1 as o1 R1; repeat constructor.
  - inv_call P1 as o1 R1; inv_call P2 as o2 R2; repeat constructor.
  - inv_call P1 as o1 R1; inv_call P2 as o2 R2; inv_call P3 as o3 R3;
      repeat constructor.
Qed.

(** X5: [GetEC2InstanceMetadata] succeeds exactly when the token exchange
    and the instance-id exchange both took place and both brought a
    complete 200 reply; the map is then the instance ID read and the
    lifecycle read, the latter replaced by "on-demand" when the third
    exchange is missing or failed. *)
Theorem GetEC2InstanceMetadata_succeeds_iff (c : Conn)
    (metadata : gmap string string) :
  returned GetEC2InstanceMetadata c = (Some metadata, None)
  ↔ ∃ o1 o2 rest,
      outcomes GetEC2InstanceMetadata c = o1 :: o2 :: rest
      ∧ failed o1 = false
      ∧ failed o2 = false
      ∧ metadata
        = <["node-lifecycle" :=
              match rest with
              | o3 :: _ => if failed o3 then "on-demand" else reply_body o3
              | [] => "on-demand"
              end]>
            (<["alpha.eksctl.io/instance-id" := reply_body o2]> ∅).
Proof.
  pose proof (GetEC2InstanceMetadata_observed c) as Hobs.
  unfold outcomes in *.
  destruct (GetEC2InstanceMetadata_path c)
    as [t1 c1 v err P1|t1 c1 token t2 c2 v err P1 P2
       |t1 c1 token t2 c2 iid t3 c3 v err P1 P2 P3].
  - split; [done|]. intros (o1 & o2 & rest & Ho & _).
    inv_call P1 as o R1; simplify_eq/=.
  - split; [done|]. intros (o1 & o2 & rest & Ho & _ & Hf2 & _).
    inv_call P1 as o R1; [done|].
    inv_call P2 as o' R2; simpl in Ho; simplify_eq.
    symmetry in R2. apply classify_error in R2. congruence.
  - inv_call P1 as o1 R1; [done|].
    symmetry in R1. apply classify_value in R1 as [Hf1 _].
    inv_call P2 as o2 R2; [done|].
    symmetry in R2. apply classify_value in R2 as [Hf2 _].
    inv_call P3 as o3 R3; simpl in *; rewrite Hf2 in Hobs; rewrite Hobs.
    + split.
      * intros [= <-]. by exists o1, o2, [].
      * by intros (o1' & o2' & rest' & [= <- <- <-] & _ & _ & ->).
    + split.
      * intros [= <-]. by exists o1, o2, [o3].
      * by intros (o1' & o2' & rest' & [= <- <- <-] & _ & _ & ->).
Qed.

(** X6: when the token endpoint answers with a status other than 200,
    the message of the returned error is "failed to get IMDS token: failed
    to get token, status code: " followed by the status code in decimal. *)
Theorem GetEC2InstanceMetadata_token_status_message (c : Conn)
    (resp : Response) (rest : list (go_result Response)) :
  outcomes GetEC2InstanceMetadata c = Ok resp :: rest →
  StatusCode resp ≠ StatusOK →
  ∃ err, returned GetEC2InstanceMetadata c = (None, Some err)
         ∧ Error err
           = "failed to get IMDS token: failed to get token, status code: "
             +:+ pretty (StatusCode resp).
Proof.
  intros Ho Hst. unfold outcomes in Ho.
  assert (classify tokenStatusError (Ok resp)
          = ("", Some (tokenStatusError (StatusCode resp)))) as Hc.
  { simpl. by case_decide. }
  destruct (GetEC2InstanceMetadata_path c)
    as [t1 c1 v err P1|t1 c1 token t2 c2 v err P1 P2
       |t1 c1 token t2 c2 iid t3 c3 v err P1 P2 P3].
  - inv_call P1 as o1 R1; simplify_eq/=.
    rewrite Hc in R1. simplify_eq. eauto.
  - inv_call P1 as o1 R1; [done|].
    inv_call P2 as o2 R2; simpl in Ho; simplify_eq; congruence.
  - inv_call P1 as o1 R1; [done|].
    inv_call P2 as o2 R2; inv_call P3 as o3 R3;
      simpl in Ho; simplify_eq; congruence.
Qed.

(** X7: when the token is obtained and the instance-id read is answered
    with a status other than 200, the message of the returned error is
    "failed to get instance ID: failed to get metadata for instance-id,
    status code: " followed by the status code in decimal. *)
Theorem GetEC2InstanceMetadata_instance_id_status_message (c : Conn)
    (o1 : go_result Response) (resp : Response)
    (rest : list (go_result Response)) :
  outcomes GetEC2InstanceMetadata c = o1 :: Ok resp :: rest →
  StatusCode resp ≠ StatusOK →
  ∃ err,
    returned GetEC2InstanceMetadata c = (None, Some err)
    ∧ Error err
      = "failed to get instance ID: failed to get metadata for instance-id, status code: "
        +:+ pretty (StatusCode resp).
Proof.
  intros Ho Hst. unfold outcomes in Ho.
  assert (classify (metadataStatusError "instance-id") (Ok resp)
          = ("", Some (metadataStatusError "instance-id" (StatusCode resp))))
    as Hc.
  { simpl. by case_decide. }
  destruct (GetEC2InstanceMetadata_path c)
    as [t1 c1 v err P1|t1 c1 token t2 c2 v err P1 P2
       |t1 c1 token t2 c2 iid t3 c3 v err P1 P2 P3].
  - inv_call P1 as o R1; simplify_eq/=.
  - inv_call P1 as o R1; [done|].
    inv_call P2 as o2 R2; simpl in Ho; simplify_eq.
    rewrite Hc in R2. simplify_eq. eauto.
  - inv_call P1 as o R1; [done|].
    inv_call P2 as o2 R2; [done|].
    inv_call P3 as o3 R3; simpl in Ho; simplify_eq; congruence.
Qed.

(** X8: a network error (from [client.Do], or while the body of a 200
    reply is read) met in the token stage or in the instance-id stage is
    itself the cause of the returned error: [Unwrap] gives back exactly
    that error, and the message is the stage description followed by its
    message. *)
Theorem GetEC2InstanceMetadata_network_error_cause (c : Conn)
    (before : list (go_result Response)) (o : go_result Response)
    (rest : list (go_result Response)) (cause : error) :
  outcomes GetEC2InstanceMetadata c = (before ++ o :: rest)%list →
  (List.length before ≤ 1)%nat →
  network_error o = Some cause →
  ∃ err,
    returned GetEC2InstanceMetadata c = (None, Some err)
    ∧ Unwrap err = Some cause
    ∧ Error err
      = match before with
        | [] => "failed to get IMDS token: "
        | _ :: _ => "failed to get instance ID: "
        end +:+ Error cause.
Proof.
  intros Ho Hlen Hnet. unfold outcomes in Ho.
  assert (∀ f, classify f o = ("", Some cause)) as Hc.
  { intros f. destruct o as [resp|e]; simpl in *; [|congruence].
    case_decide; [done|]. by rewrite Hnet. }
  destruct before as [|b [|b' before]]; simpl in *; [| |lia].
  - destruct (GetEC2InstanceMetadata_path c)
      as [t1 c1 v err P1|t1 c1 token t2 c2 v err P1 P2
         |t1 c1 token t2 c2 iid t3 c3 v err P1 P2 P3].
    + inv_call P1 as o1 R1; simplify_eq/=.
      rewrite Hc in R1. simplify_eq. eauto.
    + inv_call P1 as o1 R1; [done|].
      inv_call P2 as o2 R2; simpl in Ho; simplify_eq;
        rewrite Hc in R1; done.
    + inv_call P1 as o1 R1; [done|].
      inv_call P2 as o2 R2; [done|].
      inv_call P3 as o3 R3; simpl in Ho; simplify_eq;
        rewrite Hc in R1; done.
  - destruct (GetEC2InstanceMetadata_path c)
      as [t1 c1 v err P1|t1 c1 token t2 c2 v err P1 P2
         |t1 c1 token t2 c2 iid t3 c3 v err P1 P2 P3].
    + inv_call P1 as o1 R1; simplify_eq/=.
    + inv_call P1 as o1 R1; [done|].
      inv_call P2 as o2 R2; simpl in Ho; simplify_eq.
      rewrite Hc in R2. simplify_eq. eauto.
    + inv_call P1 as o1 R1; [done|].
      inv_call P2 as o2 R2; [done|].
      inv_call P3 as o3 R3; simpl in Ho; simplify_eq;
        rewrite Hc in R2; done.
Qed.

(** *** More on the test variant *)

(** The production helper is the test helper at the metadata
    service: with the 5 second client and the base URL
    http://169.254.169.254, getMetadataFromURL does what getMetadata
    does, request for request and result for result. *)
Theorem getMetadataFromURL_at_IMDS (token path : string) (s : State) :
  getMetadataFromURL imdsClient token "http://169.254.169.254" path s
  = getMetadata token path s.
Proof. reflexivity. Qed.

(** Every run of [testGetEC2InstanceMetadata] follows one of its paths. *)
Lemma testGetEC2InstanceMetadata_path (serverURL : string) (c : Conn) :
  TestPath serverURL c (exchanges (testGetEC2InstanceMetadata serverURL) c)
    (returned (testGetEC2InstanceMetadata serverURL) c).
Proof.
  unfold exchanges, returned.
  destruct (run (testGetEC2InstanceMetadata serverURL) c) as [r t] eqn:Hrun.
  revert Hrun. unfold run, testGetEC2InstanceMetadata, NewRequest. simpl.
  destruct (url_Parse _) as [err|] eqn:Hurl;
    [intros [= <- <-]; simpl; by constructor|].
  unfold mbind, M_bind, client_Do. simpl.
  fold testClient (tokenRequestAt serverURL).
  destruct (RoundTrip c testClient (tokenRequestAt serverURL))
    as [o c1] eqn:Hrt.
  destruct o as [resp|err];
    [|intros [= <- <-]; simpl; by eapply test_token_error_path].
  case_decide as Hst.
  { intros [= <- <-]; simpl. eapply test_token_error_path; [done..|].
    simpl. by case_decide. }
  unfold io.ReadAll. destruct (read_err (Body_ resp)) as [e|] eqn:Hrd.
  { intros [= <- <-]; simpl. eapply test_token_error_path; [done..|].
    simpl. case_decide; [done|]. by rewrite Hrd. }
  assert (test_token_error (Ok resp) = None) as Hok.
  { simpl. case_decide; [done|]. by rewrite Hrd. }
  change (bytes (Body_ resp)) with (reply_body (Ok resp)).
  set (o := Ok resp) in *.
  match goal with
  | |- context [getMetadataFromURL ?cl ?tok ?u "instance-id" ?s] =>
      destruct (getMetadataFromURL_call cl tok u "instance-id" s)
        as (t2 & c2 & P2 & Hs2);
      destruct (getMetadataFromURL cl tok u "instance-id" s)
        as [[instanceID [err|]] s2]; simpl in *; subst s2
  end.
  - intros [= <- <-]. simpl. by eapply test_instance_id_error.
  - match goal with
    | |- context [getMetadataFromURL ?cl ?tok ?u "instance-life-cycle" ?s] =>
        destruct (getMetadataFromURL_call cl tok u "instance-life-cycle" s)
          as (t3 & c3 & P3 & Hs3);
        destruct (getMetadataFromURL cl tok u "instance-life-cycle" s)
          as [[v err] s3]; simpl in *; subst s3
    end.
    intros [= <- <-]. simpl. by eapply test_completed.
Qed.

Lemma test_token_error_failed (o : go_result Response) :
  (test_token_error o = None → failed o = false)
  ∧ (∀ e, test_token_error o = Some e → failed o = true).
Proof.
  unfold test_token_error, failed. destruct o as [resp|err]; [|by split].
  destruct (decide (StatusCode resp ≠ StatusOK)) as [Hs|Hs].
  - rewrite bool_decide_eq_true_2 by done. by split.
  - rewrite bool_decide_eq_false_2 by done. simpl.
    destruct (read_err (Body_ resp)) as [e|]; by split.
Qed.

Ltac test_paths serverURL c :=
  destruct (testGetEC2InstanceMetadata_path serverURL c)
    as [terr Hu|to tc1 te Hu Hrt He|to tc1 tt2 tc2 tv terr Hu Hrt Hok Q2
       |to tc1 tt2 tc2 tiid tt3 tc3 tv terr Hu Hrt Hok Q2 Q3].

(** X9: whenever the test variant gets as far as a third exchange it
    succeeds: the map binds "instance-id" to the body of the second reply
    and "instance-lifecycle" to the body of the third, or to "on-demand"
    when the third exchange failed.  (Both scenarios of the test file are
    instances.) *)
Theorem testGetEC2InstanceMetadata_result (serverURL : string) (c : Conn)
    (o1 o2 o3 : go_result Response) :
  outcomes (testGetEC2InstanceMetadata serverURL) c = [o1; o2; o3] →
  returned (testGetEC2InstanceMetadata serverURL) c
  = (Some (<["instance-lifecycle" :=
               if failed o3 then "on-demand" else reply_body o3]>
             (<["instance-id" := reply_body o2]> ∅)), None).
Proof.
  intros Ho. unfold outcomes in Ho. test_paths serverURL c.
  - done.
  - done.
  - inv_call Q2 as o2' R2; simplify_eq/=.
  - inv_call Q2 as o2' R2; [done|].
    symmetry in R2. apply classify_value in R2 as [_ ->].
    inv_call Q3 as o3' R3; simpl in Ho; simplify_eq.
    destruct terr as [e|]; symmetry in R3.
    + by apply classify_error in R3 as ->.
    + by apply classify_value in R3 as [-> ->].
Qed.

(** X10: in the test variant too, every request after the token request
    is a GET that carries in "X-aws-ec2-metadata-token" exactly the body
    of the token reply: what the handlers of the test file check. *)
Theorem testGetEC2InstanceMetadata_reads_carry_token (serverURL : string)
    (c : Conn) (tokResp : Response) (token : string)
    (rest : list (go_result Response)) :
  outcomes (testGetEC2InstanceMetadata serverURL) c = Ok tokResp :: rest →
  StatusCode tokResp = StatusOK →
  io.ReadAll (Body_ tokResp) = (token, None) →
  ∃ reads,
    requests (testGetEC2InstanceMetadata serverURL) c
      = tokenRequestAt serverURL :: reads
    ∧ Forall (λ req,
        Method_ req = MethodGet
        ∧ Header_Get req "X-aws-ec2-metadata-token" = token) reads.
Proof.
  intros Ho Hst [= Hbody Hrd]. unfold outcomes, requests in *.
  assert (∀ path, Method_ (metadataRequestAt serverURL token path) = MethodGet
            ∧ Header_Get (metadataRequestAt serverURL token path)
                "X-aws-ec2-metadata-token" = token) as Hread.
  { intros path. split; [done|]. apply Header_Get_Set. }
  test_paths serverURL c.
  - done.
  - simpl in *. simplify_eq. eexists. split; [done|]. constructor.
  - inv_call Q2 as o2 R2; simpl in *; simplify_eq; simpl;
      (eexists; split; [done|]); repeat constructor; apply Hread.
  - inv_call Q2 as o2 R2; [done|].
    inv_call Q3 as o3 R3; simpl in *; simplify_eq; simpl;
      (eexists; split; [done|]); repeat constructor; apply Hread.
Qed.

(** X11: the test variant talks to the given server only, without a
    timeout, and never retries: its requests are an initial part of the
    token request and the two reads, all built from [serverURL], and every
    call of [client.Do] uses the client with the zero timeout. *)
Theorem testGetEC2InstanceMetadata_requests (serverURL : string) (c : Conn) :
  (∃ token,
     requests (testGetEC2InstanceMetadata serverURL) c
     `prefix_of`
     [tokenRequestAt serverURL;
      metadataRequestAt serverURL token "instance-id";
      metadataRequestAt serverURL token "instance-life-cycle"])
  ∧ Forall (λ ex,
      Timeout (ex_client ex) = 0
      ∧ ∃ suffix, URL (ex_request ex) = serverURL +:+ suffix)
      (exchanges (testGetEC2InstanceMetadata serverURL) c).
Proof.
  unfold requests.
  assert (∀ o, Timeout (ex_client
                 (mkExchange testClient (tokenRequestAt serverURL) o)) = 0
               ∧ ∃ suffix, URL (ex_request
                   (mkExchange testClient (tokenRequestAt serverURL) o))
                 = serverURL +:+ suffix) as Htok.
  { intros o. split; [done|]. by eexists. }
  assert (∀ token path o,
            Timeout (ex_client (mkExchange testClient
                       (metadataRequestAt serverURL token path) o)) = 0
            ∧ ∃ suffix, URL (ex_request (mkExchange testClient
                               (metadataRequestAt serverURL token path) o))
                        = serverURL +:+ suffix) as Hmd.
  { intros token path o. split; [done|]. by eexists. }
  test_paths serverURL c.
  - split; [exists ""; apply prefix_nil|constructor].
  - split; [exists ""; by eexists [_; _]|]. repeat constructor; apply Htok.
  - inv_call Q2 as o2 R2; simpl.
    + split; [exists ""; by eexists [_; _]|]. repeat constructor; apply Htok.
    + split; [eexists; by eexists [_]|].
      repeat constructor; [apply Htok|apply Hmd].
  - inv_call Q2 as o2 R2; [done|].
    inv_call Q3 as o3 R3; simpl.
    + split; [eexists; by eexists [_]|].
      repeat constructor; [apply Htok|apply Hmd].
    + split; [eexists; by exists []|].
      repeat constructor; [apply Htok|apply Hmd..].
Qed.

(** X12: the test variant words the failures of its token stage by
    itself.  When the first exchange fails it returns a nil map, sends
    nothing more, and the error is: "failed to get token: " wrapping the
    error of [client.Do]; or "failed to get token, status code: " with the
    status code, wrapping nothing; or "failed to read token: " wrapping
    the error of the body read. *)
Theorem testGetEC2InstanceMetadata_token_errors (serverURL : string)
    (c : Conn) (o1 : go_result Response) (rest : list (go_result Response)) :
  outcomes (testGetEC2InstanceMetadata serverURL) c = o1 :: rest →
  failed o1 = true →
  ∃ err,
    returned (testGetEC2InstanceMetadata serverURL) c = (None, Some err)
    ∧ rest = []
    ∧ match o1 with
      | Err cause =>
        Error err = "failed to get token: " +:+ Error cause
        ∧ Unwrap err = Some cause
      | Ok resp =>
        if decide (StatusCode resp ≠ StatusOK) then
          Error err = "failed to get token, status code: "
                      +:+ pretty (StatusCode resp)
          ∧ Unwrap err = None
        else
          ∃ cause, read_err (Body_ resp) = Some cause
                   ∧ Error err = "failed to read token: " +:+ Error cause
                   ∧ Unwrap err = Some cause
      end.
Proof.
  intros Ho Hfail. unfold outcomes in Ho. test_paths serverURL c.
  - done.
  - simpl in Ho. simplify_eq. eexists. split; [done|]. split; [done|].
    destruct o1 as [resp|cause]; simpl in *; [|by simplify_eq].
    case_decide; [by simplify_eq|].
    destruct (read_err (Body_ resp)) as [cause|]; [|done].
    simplify_eq. eauto.
  - apply test_token_error_failed in Hok.
    inv_call Q2 as o2 R2; simpl in Ho; simplify_eq; congruence.
  - apply test_token_error_failed in Hok.
    inv_call Q2 as o2 R2; [done|].
    inv_call Q3 as o3 R3; simpl in Ho; simplify_eq; congruence.
Qed.

(** X13: a server URL from which the token URL cannot be built makes the
    test variant fail before anything is sent, with the parse error
    wrapped as "failed to create token request: ...". *)
Theorem testGetEC2InstanceMetadata_bad_server_url (serverURL : string)
    (c : Conn) (cause : error) :
  url_Parse (serverURL +:+ "/latest/api/token") = Some cause →
  exchanges (testGetEC2InstanceMetadata serverURL) c = []
  ∧ ∃ err,
      returned (testGetEC2InstanceMetadata serverURL) c = (None, Some err)
      ∧ Error err = "failed to create token request: " +:+ Error cause
      ∧ Unwrap err = Some cause.
Proof.
  intros Hbad. test_paths serverURL c; try congruence.
  split; [done|]. simplify_eq. eauto.
Qed.

(** X14: against the same sequence of outcomes, the test variant sends
    what the production function sends up to the address: the same number
    of requests, with the same methods and the same headers, in the same
    order. *)
Theorem testGetEC2InstanceMetadata_same_requests (serverURL : string)
    (c c' : Conn) :
  outcomes (testGetEC2InstanceMetadata serverURL) c'
    = outcomes GetEC2InstanceMetadata c →
  (λ req, (Method_ req, Header req))
    <$> requests (testGetEC2InstanceMetadata serverURL) c'
  = (λ req, (Method_ req, Header req))
    <$> requests GetEC2InstanceMetadata c.
Proof.
  intros Ho. unfold outcomes, requests in *.
  destruct (GetEC2InstanceMetadata_path c)
    as [t1 c1 v err P1|t1 c1 token t2 c2 v err P1 P2
       |t1 c1 token t2 c2 iid t3 c3 v err P1 P2 P3];
    test_paths serverURL c';
    repeat match goal with
    | Hc : Call _ _ _ _ _ _ _ |- _ =>
        apply Call_inv in Hc as [(-> & ? & ? & _)|(? & -> & ? & _ & _)]
    end;
    simpl in Ho; simplify_eq; try done;
    repeat match goal with
    | Hv : (_, None) = classify _ _ |- _ =>
        symmetry in Hv; apply classify_value in Hv as [_ ->]
    end;
    done.
Qed.

(** X15: whatever the test variant sends first is the token request the
    handlers of the test file expect: a PUT to the server's
    /latest/api/token with "X-aws-ec2-metadata-token-ttl-seconds" set to
    "600". *)
Theorem testGetEC2InstanceMetadata_first_request (serverURL : string)
    (c : Conn) (req : Request) :
  head (requests (testGetEC2InstanceMetadata serverURL) c) = Some req →
  Method_ req = MethodPut
  ∧ URL req = serverURL +:+ "/latest/api/token"
  ∧ Header_Get req "X-aws-ec2-metadata-token-ttl-seconds" = "600".
Proof.
  unfold requests.
  assert (Header_Get (tokenRequestAt serverURL)
            "X-aws-ec2-metadata-token-ttl-seconds" = "600") as Hh
    by apply Header_Get_Set.
  test_paths serverURL c; simpl; intros [= <-]; done.
Qed.

(** X16: a nil error always comes with a complete map.  Whenever
    [GetEC2InstanceMetadata] returns a nil error, the map is not nil and
    has exactly the keys "alpha.eksctl.io/instance-id" and
    "node-lifecycle": the function never returns nil with nil. *)
Theorem GetEC2InstanceMetadata_nil_error_full_map (c : Conn) :
  (returned GetEC2InstanceMetadata c).2 = None →
  ∃ metadata : gmap string string,
    (returned GetEC2InstanceMetadata c).1 = Some metadata
    ∧ dom metadata = {["alpha.eksctl.io/instance-id"; "node-lifecycle"]}
    ∧ size metadata = 2%nat.
Proof.
  destruct (GetEC2InstanceMetadata_path c)
    as [t1 c1 v err P1|t1 c1 token t2 c2 v err P1 P2
       |t1 c1 token t2 c2 iid t3 c3 v err P1 P2 P3]; simpl; [done|done|].
  intros _. eexists. split; [reflexivity|].
  edestruct (metadata_two_entries iid
               match err with Some _ => "on-demand" | None => v end)
    as (_ & _ & Hdom & Hsz); [reflexivity|].
  exact (conj Hdom Hsz).
Qed.

End Properties.

(** ** Scenarios

    The theorems above at concrete peers: the two scenarios of the test
    file, and the failures of each stage. *)

Section Scenarios.

#[local] Existing Instance Scripted.world.

Lemma GetEC2InstanceMetadata_all_200_witness :
  ∃ metadata : gmap string string,
    returned GetEC2InstanceMetadata Scripted.spot_instance
      = (Some metadata, None)
    ∧ metadata !! "alpha.eksctl.io/instance-id" = Some "i-1234567890abcdef0"
    ∧ metadata !! "node-lifecycle" = Some "spot"
    ∧ dom metadata = {["alpha.eksctl.io/instance-id"; "node-lifecycle"]}
    ∧ size metadata = 2%nat.
Proof.
  apply (GetEC2InstanceMetadata_all_200 (W := Scripted.world)
           Scripted.spot_instance
           (mkResponse 200 (mkBody "mock-token" None))
           (mkResponse 200 (mkBody "i-1234567890abcdef0" None))
           (mkResponse 200 (mkBody "spot" None))
           "i-1234567890abcdef0" "spot"); reflexivity.
Defined.

Lemma GetEC2InstanceMetadata_lifecycle_failure_witness :
  ∃ metadata : gmap string string,
    returned GetEC2InstanceMetadata Scripted.lifecycle_not_found
      = (Some metadata, None)
    ∧ metadata !! "node-lifecycle" = Some "on-demand"
    ∧ metadata !! "alpha.eksctl.io/instance-id" = Some "i-1234567890abcdef0"
    ∧ size metadata = 2%nat.
Proof.
  apply (GetEC2InstanceMetadata_lifecycle_failure (W := Scripted.world)
           Scripted.lifecycle_not_found
           (mkResponse 200 (mkBody "mock-token" None))
           (mkResponse 200 (mkBody "i-1234567890abcdef0" None))
           (Scripted.reply 404 "")); reflexivity.
Defined.

Lemma GetEC2InstanceMetadata_token_failure_witness :
  (∃ err, returned GetEC2InstanceMetadata Scripted.token_forbidden
          = (None, Some err))
  ∧ ([] : list (go_result Response)) = []
  ∧ requests GetEC2InstanceMetadata Scripted.token_forbidden = [tokenRequest]
  ∧ ∀ req, req ∈ requests GetEC2InstanceMetadata Scripted.token_forbidden →
      Method_ req = MethodPut
      ∧ URL req = "http://169.254.169.254/latest/api/token".
Proof.
  apply (GetEC2InstanceMetadata_token_failure (W := Scripted.world)
           Scripted.token_forbidden (Scripted.reply 403 "") []); reflexivity.
Defined.

Lemma GetEC2InstanceMetadata_instance_id_failure_witness :
  (∃ err, returned GetEC2InstanceMetadata Scripted.instance_id_not_found
          = (None, Some err))
  ∧ ([] : list (go_result Response)) = []
  ∧ (∃ token, requests GetEC2InstanceMetadata Scripted.instance_id_not_found
              = [tokenRequest; metadataRequest token "instance-id"])
  ∧ ∀ req,
      req ∈ requests GetEC2InstanceMetadata Scripted.instance_id_not_found →
      URL req ≠ "http://169.254.169.254/latest/meta-data/instance-life-cycle".
Proof.
  apply (GetEC2InstanceMetadata_instance_id_failure (W := Scripted.world)
           Scripted.instance_id_not_found
           (mkResponse 200 (mkBody "mock-token" None))
           (Scripted.reply 404 "") []); reflexivity.
Defined.

Lemma GetEC2InstanceMetadata_reads_carry_token_witness :
  ∃ reads,
    requests GetEC2InstanceMetadata Scripted.spot_instance
      = tokenRequest :: reads
    ∧ ∀ req, req ∈ reads →
        Method_ req = MethodGet
        ∧ Header_Get req "X-aws-ec2-metadata-token" = "mock-token"
        ∧ Header req !! CanonicalMIMEHeaderKey "X-aws-ec2-metadata-token"
          = Some ["mock-token"].
Proof.
  apply (GetEC2InstanceMetadata_reads_carry_token (W := Scripted.world)
           Scripted.spot_instance
           (mkResponse 200 (mkBody "mock-token" None)) "mock-token"
           [Scripted.reply 200 "i-1234567890abcdef0";
            Scripted.reply 200 "spot"]); reflexivity.
Defined.

(** A lifecycle body that cannot be read to its end counts as a failed
    read: the default is substituted. *)
Example lifecycle_truncated_defaults :
  failed (Scripted.truncated 200 "sp" (errorString "unexpected EOF")) = true
  ∧ returned GetEC2InstanceMetadata Scripted.lifecycle_truncated
    = (Some (<["node-lifecycle" := "on-demand"]>
               (<["alpha.eksctl.io/instance-id" := "i-1234567890abcdef0"]> ∅)),
       None).
Proof. split; reflexivity. Qed.

(** In the first scenario both metadata reads are indeed sent, each with
    the token of the token response. *)
Example spot_instance_requests :
  requests GetEC2InstanceMetadata Scripted.spot_instance
  = [tokenRequest; metadataRequest "mock-token" "instance-id";
     metadataRequest "mock-token" "instance-life-cycle"].
Proof. reflexivity. Qed.

Lemma getIMDSToken_spec_witness :
  ∃ req o,
    exchanges getIMDSToken Scripted.token_forbidden
      = [mkExchange imdsClient req o]
    ∧ Method_ req = MethodPut
    ∧ URL req = "http://169.254.169.254/latest/api/token"
    ∧ Header_Get req "X-aws-ec2-metadata-token-ttl-seconds" = "600"
    ∧ (∀ resp, o = Ok resp → StatusCode resp ≠ StatusOK →
         ∃ err, returned getIMDSToken Scripted.token_forbidden = ("", Some err)
                ∧ Error err = "failed to get token, status code: "
                              +:+ pretty (StatusCode resp))
    ∧ (∀ resp token, o = Ok resp → StatusCode resp = StatusOK →
         io.ReadAll (Body_ resp) = (token, None) →
         returned getIMDSToken Scripted.token_forbidden = (token, None))
    ∧ (∀ err, o = Err err →
         returned getIMDSToken Scripted.token_forbidden = ("", Some err))
    ∧ (∀ resp err, o = Ok resp → StatusCode resp = StatusOK →
         read_err (Body_ resp) = Some err →
         returned getIMDSToken Scripted.token_forbidden = ("", Some err)).
Proof.
  apply (getIMDSToken_spec (W := Scripted.world) Scripted.token_forbidden);
    reflexivity.
Defined.

(** The message of a refused token request names the status code. *)
Example token_forbidden_message :
  returned getIMDSToken Scripted.token_forbidden
  = ("", Some (errorString "failed to get token, status code: 403")).
Proof. vm_compute. reflexivity. Qed.

Example token_returned_whole :
  returned getIMDSToken Scripted.spot_instance = ("mock-token", None).
Proof. reflexivity. Qed.

Lemma GetEC2InstanceMetadata_errors_wrapped_witness :
  (returned GetEC2InstanceMetadata Scripted.token_forbidden).2
    = Some Scripted.token_forbidden_error
  ∧ ∃ stage cause,
      Error Scripted.token_forbidden_error = stage +:+ ": " +:+ Error cause
      ∧ Unwrap Scripted.token_forbidden_error = Some cause
      ∧ cause ∈ chain Scripted.token_forbidden_error
      ∧ ((stage = "failed to get IMDS token"
          ∧ (returned getIMDSToken Scripted.token_forbidden).2 = Some cause)
         ∨ (stage = "failed to get instance ID"
            ∧ ∃ token s1,
                getIMDSToken
                  {| conn := Scripted.token_forbidden; trace := [] |}
                = ((token, None), s1)
                ∧ (getMetadata token "instance-id" s1).1.2 = Some cause)).
Proof.
  split; [reflexivity|].
  apply (GetEC2InstanceMetadata_errors_wrapped (W := Scripted.world)
           Scripted.token_forbidden Scripted.token_forbidden_error).
  reflexivity.
Defined.

Example token_forbidden_error_message :
  Error Scripted.token_forbidden_error
  = "failed to get IMDS token: failed to get token, status code: 403".
Proof. vm_compute. reflexivity. Qed.

Lemma GetEC2InstanceMetadata_error_nil_map_witness :
  (returned GetEC2InstanceMetadata Scripted.token_forbidden).2 ≠ None
  ∧ (returned GetEC2InstanceMetadata Scripted.token_forbidden).1 = None.
Proof.
  split; [vm_compute; discriminate|].
  apply (proj1 (GetEC2InstanceMetadata_error_nil_map (W := Scripted.world)
                  Scripted.token_forbidden)).
  vm_compute; discriminate.
Defined.

Lemma testGetEC2InstanceMetadata_agrees_witness :
  outcomes (testGetEC2InstanceMetadata "http://127.0.0.1:8080")
    Scripted.lifecycle_not_found
  = outcomes GetEC2InstanceMetadata Scripted.lifecycle_not_found
  ∧ (returned GetEC2InstanceMetadata Scripted.lifecycle_not_found).1
    = with_production_keys
        <$> (returned (testGetEC2InstanceMetadata "http://127.0.0.1:8080")
               Scripted.lifecycle_not_found).1.
Proof.
  split; [reflexivity|].
  apply (testGetEC2InstanceMetadata_agrees (W := Scripted.world)
           "http://127.0.0.1:8080"
           Scripted.lifecycle_not_found Scripted.lifecycle_not_found).
  reflexivity.
Defined.

(** The second scenario of the test file. *)
Example test_lifecycle_not_found :
  returned (testGetEC2InstanceMetadata "http://127.0.0.1:8080")
    Scripted.lifecycle_not_found
  = (Some (<["instance-lifecycle" := "on-demand"]>
             (<["instance-id" := "i-1234567890abcdef0"]> ∅)), None).
Proof. reflexivity. Qed.

Lemma GetEC2InstanceMetadata_empty_token_witness :
  returned getIMDSToken Scripted.empty_token_rejected = ("", None)
  ∧ ∃ o2 rest' read_id later,
      [Scripted.reply 401 ""] = o2 :: rest'
      ∧ requests GetEC2InstanceMetadata Scripted.empty_token_rejected
        = tokenRequest :: read_id :: later
      ∧ Method_ read_id = MethodGet
      ∧ URL read_id = "http://169.254.169.254/latest/meta-data/instance-id"
      ∧ Header_Get read_id "X-aws-ec2-metadata-token" = ""
      ∧ (failed o2 = true → later = [])
      ∧ (failed o2 = false →
           ∃ read_lc,
             later = [read_lc]
             ∧ Method_ read_lc = MethodGet
             ∧ URL read_lc
               = "http://169.254.169.254/latest/meta-data/instance-life-cycle"
             ∧ Header_Get read_lc "X-aws-ec2-metadata-token" = "").
Proof.
  apply (GetEC2InstanceMetadata_empty_token (W := Scripted.world)
           Scripted.empty_token_rejected
           (mkResponse 200 (mkBody "" None)) [Scripted.reply 401 ""]);
    reflexivity.
Defined.

(** C10 as stated fails: the token request returns HTTP 200 with an empty
    body and getIMDSToken returns the empty string with a nil error, but
    the instance-id read (sent with the empty token) is answered with 401,
    the function returns, and the instance-life-cycle read is never
    issued: one metadata read, not both. *)
Lemma GetEC2InstanceMetadata_empty_token_counterexample :
  outcomes GetEC2InstanceMetadata Scripted.empty_token_rejected
    = [Scripted.reply 200 ""; Scripted.reply 401 ""]
  ∧ returned getIMDSToken Scripted.empty_token_rejected = ("", None)
  ∧ requests GetEC2InstanceMetadata Scripted.empty_token_rejected
    = [tokenRequest; metadataRequest "" "instance-id"]
  ∧ ¬ ∃ req,
        req ∈ requests GetEC2InstanceMetadata Scripted.empty_token_rejected
        ∧ URL req
          = "http://169.254.169.254/latest/meta-data/instance-life-cycle".
Proof.
  assert (requests GetEC2InstanceMetadata Scripted.empty_token_rejected
          = [tokenRequest; metadataRequest "" "instance-id"]) as Hreq
    by reflexivity.
  split_and!; [reflexivity|reflexivity|exact Hreq|].
  rewrite Hreq.
  intros (req & [->| ->%list_elem_of_singleton]%elem_of_cons & Hurl);
    discriminate Hurl.
Qed.

(** *** The further properties at concrete peers *)

Lemma getMetadata_spec_witness :
  ∃ req o,
    exchanges (getMetadata "mock-token" "instance-id")
      [Scripted.reply StatusNotFound ""]
      = [mkExchange imdsClient req o]
    ∧ Method_ req = MethodGet
    ∧ URL req = "http://169.254.169.254/latest/meta-data/" +:+ "instance-id"
    ∧ Header_Get req "X-aws-ec2-metadata-token" = "mock-token"
    ∧ (∀ resp, o = Ok resp → StatusCode resp ≠ StatusOK →
         ∃ err, returned (getMetadata "mock-token" "instance-id")
                  [Scripted.reply StatusNotFound ""] = ("", Some err)
                ∧ Error err = "failed to get metadata for " +:+ "instance-id"
                              +:+ ", status code: "
                              +:+ pretty (StatusCode resp))
    ∧ (∀ resp data, o = Ok resp → StatusCode resp = StatusOK →
         io.ReadAll (Body_ resp) = (data, None) →
         returned (getMetadata "mock-token" "instance-id")
           [Scripted.reply StatusNotFound ""] = (data, None))
    ∧ (∀ err, network_error o = Some err →
         returned (getMetadata "mock-token" "instance-id")
           [Scripted.reply StatusNotFound ""] = ("", Some err)).
Proof.
  apply (getMetadata_spec (W := Scripted.world) "mock-token" "instance-id"
           [Scripted.reply StatusNotFound ""]).
  reflexivity.
Defined.

Example instance_id_not_found_message :
  returned (getMetadata "mock-token" "instance-id")
    [Scripted.reply StatusNotFound ""]
  = ("", Some (errorString
                 "failed to get metadata for instance-id, status code: 404")).
Proof. vm_compute. reflexivity. Qed.

Lemma helpers_error_empty_value_witness :
  (getIMDSToken (@mkState Scripted.world Scripted.token_forbidden [])).1
    = ("", Some (tokenStatusError StatusForbidden))
  ∧ "" = "".
Proof.
  split; [reflexivity|].
  apply (proj1 (helpers_error_empty_value (W := Scripted.world)
                  "mock-token" "instance-id"
                  (@mkState Scripted.world Scripted.token_forbidden [])
                  "" (tokenStatusError StatusForbidden))).
  reflexivity.
Defined.

Lemma GetEC2InstanceMetadata_succeeds_iff_witness :
  returned GetEC2InstanceMetadata Scripted.spot_instance
  = (Some (<["node-lifecycle" := "spot"]>
             (<["alpha.eksctl.io/instance-id" := "i-1234567890abcdef0"]> ∅)),
     None).
Proof.
  apply (proj2 (GetEC2InstanceMetadata_succeeds_iff (W := Scripted.world)
                  Scripted.spot_instance _)).
  exists (Scripted.reply StatusOK "mock-token"),
    (Scripted.reply StatusOK "i-1234567890abcdef0"),
    [Scripted.reply StatusOK "spot"].
  repeat split; reflexivity.
Defined.

Lemma GetEC2InstanceMetadata_token_status_message_witness :
  ∃ err,
    returned GetEC2InstanceMetadata Scripted.token_forbidden = (None, Some err)
    ∧ Error err
      = "failed to get IMDS token: failed to get token, status code: "
        +:+ pretty StatusForbidden.
Proof.
  apply (GetEC2InstanceMetadata_token_status_message (W := Scripted.world)
           Scripted.token_forbidden
           (mkResponse StatusForbidden (mkBody "" None)) []);
    [reflexivity|vm_compute; discriminate].
Defined.

Lemma GetEC2InstanceMetadata_instance_id_status_message_witness :
  ∃ err,
    returned GetEC2InstanceMetadata Scripted.instance_id_not_found
      = (None, Some err)
    ∧ Error err
      = "failed to get instance ID: failed to get metadata for instance-id, status code: "
        +:+ pretty StatusNotFound.
Proof.
  apply (GetEC2InstanceMetadata_instance_id_status_message
           (W := Scripted.world) Scripted.instance_id_not_found
           (Scripted.reply StatusOK "mock-token")
           (mkResponse StatusNotFound (mkBody "" None)) []);
    [reflexivity|vm_compute; discriminate].
Defined.

Lemma GetEC2InstanceMetadata_network_error_cause_witness :
  ∃ err,
    returned GetEC2InstanceMetadata Scripted.instance_id_unreachable
      = (None, Some err)
    ∧ Unwrap err = Some Scripted.refused
    ∧ Error err = "failed to get instance ID: " +:+ Error Scripted.refused.
Proof.
  apply (GetEC2InstanceMetadata_network_error_cause (W := Scripted.world)
           Scripted.instance_id_unreachable
           [Scripted.reply StatusOK "mock-token"] (Err Scripted.refused) []
           Scripted.refused);
    [reflexivity|simpl; lia|reflexivity].
Defined.

Lemma GetEC2InstanceMetadata_nil_error_full_map_witness :
  ∃ metadata : gmap string string,
    (returned GetEC2InstanceMetadata Scripted.lifecycle_truncated).1
      = Some metadata
    ∧ dom metadata = {["alpha.eksctl.io/instance-id"; "node-lifecycle"]}
    ∧ size metadata = 2%nat.
Proof.
  apply (GetEC2InstanceMetadata_nil_error_full_map (W := Scripted.world)
           Scripted.lifecycle_truncated).
  reflexivity.
Defined.

Lemma testGetEC2InstanceMetadata_result_witness :
  returned (testGetEC2InstanceMetadata "http://127.0.0.1:8080")
    Scripted.lifecycle_not_found
  = (Some (<["instance-lifecycle" := "on-demand"]>
             (<["instance-id" := "i-1234567890abcdef0"]> ∅)), None).
Proof.
  apply (testGetEC2InstanceMetadata_result (W := Scripted.world)
           "http://127.0.0.1:8080" Scripted.lifecycle_not_found
           (Scripted.reply StatusOK "mock-token")
           (Scripted.reply StatusOK "i-1234567890abcdef0")
           (Scripted.reply StatusNotFound "")).
  reflexivity.
Defined.

Lemma testGetEC2InstanceMetadata_reads_carry_token_witness :
  ∃ reads,
    requests (testGetEC2InstanceMetadata "http://127.0.0.1:8080")
      Scripted.spot_instance
      = tokenRequestAt "http://127.0.0.1:8080" :: reads
    ∧ Forall (λ req,
        Method_ req = MethodGet
        ∧ Header_Get req "X-aws-ec2-metadata-token" = "mock-token") reads.
Proof.
  apply (testGetEC2InstanceMetadata_reads_carry_token (W := Scripted.world)
           "http://127.0.0.1:8080" Scripted.spot_instance
           (mkResponse StatusOK (mkBody "mock-token" None)) "mock-token"
           [Scripted.reply StatusOK "i-1234567890abcdef0";
            Scripted.reply StatusOK "spot"]); reflexivity.
Defined.

Lemma testGetEC2InstanceMetadata_token_errors_witness :
  ∃ err,
    returned (testGetEC2InstanceMetadata "http://127.0.0.1:8080")
      Scripted.token_forbidden = (None, Some err)
    ∧ ([] : list (go_result Response)) = []
    ∧ Error err = "failed to get token, status code: "
                  +:+ pretty StatusForbidden
    ∧ Unwrap err = None.
Proof.
  apply (testGetEC2InstanceMetadata_token_errors (W := Scripted.world)
           "http://127.0.0.1:8080" Scripted.token_forbidden
           (Scripted.reply StatusForbidden "") []); reflexivity.
Defined.

Lemma testGetEC2InstanceMetadata_bad_server_url_witness :
  exchanges (W := Scripted.picky_world)
    (testGetEC2InstanceMetadata "://127.0.0.1") Scripted.spot_instance = []
  ∧ ∃ err,
      returned (W := Scripted.picky_world)
        (testGetEC2InstanceMetadata "://127.0.0.1") Scripted.spot_instance
      = (None, Some err)
      ∧ Error err
        = "failed to create token request: " +:+ Error Scripted.missing_scheme
      ∧ Unwrap err = Some Scripted.missing_scheme.
Proof.
  apply (testGetEC2InstanceMetadata_bad_server_url (W := Scripted.picky_world)
           "://127.0.0.1" Scripted.spot_instance Scripted.missing_scheme).
  reflexivity.
Defined.

Lemma testGetEC2InstanceMetadata_same_requests_witness :
  (λ req, (Method_ req, Header req))
    <$> requests (testGetEC2InstanceMetadata "http://127.0.0.1:8080")
          Scripted.spot_instance
  = (λ req, (Method_ req, Header req))
    <$> requests GetEC2InstanceMetadata Scripted.spot_instance.
Proof.
  apply (testGetEC2InstanceMetadata_same_requests (W := Scripted.world)
           "http://127.0.0.1:8080"
           Scripted.spot_instance Scripted.spot_instance).
  reflexivity.
Defined.

Lemma testGetEC2InstanceMetadata_first_request_witness :
  Method_ (tokenRequestAt "http://127.0.0.1:8080") = MethodPut
  ∧ URL (tokenRequestAt "http://127.0.0.1:8080")
    = "http://127.0.0.1:8080" +:+ "/latest/api/token"
  ∧ Header_Get (tokenRequestAt "http://127.0.0.1:8080")
      "X-aws-ec2-metadata-token-ttl-seconds" = "600".
Proof.
  apply (testGetEC2InstanceMetadata_first_request (W := Scripted.world)
           "http://127.0.0.1:8080" Scripted.token_unreachable
           (tokenRequestAt "http://127.0.0.1:8080")).
  reflexivity.
Defined.

End Scenarios.
